(** * Orders service: a shallow embedding of [service/models.py] and
      [service/routes.py]

    The service keeps two tables, [order] and [item], behind an object
    relational mapper and exposes them through HTTP handlers.  Python
    values are modelled by the type [json] of parsed request bodies,
    exceptions by [exn], the call chain handler -> model -> database by a
    state-and-exception monad over [World]. *)

From Stdlib Require Import ZArith QArith Bool List String Ascii Lia.
From Stdlib Require Import DecimalString.
Import ListNotations.

#[local] Set Warnings "-register-all".
Local Open Scope string_scope.
Local Open Scope Z_scope.

(** ** Python values *)

(** What [request.get_json()] hands to the handlers, and what the model
    attributes hold after [deserialize] copied it there.  A Python [float]
    is the rational it denotes; a [dict] keeps its items in order. *)
Inductive json : Type :=
| JNull
| JBool (b : bool)
| JInt (z : Z)
| JFloat (q : Q)
| JStr (s : string)
| JList (l : list json)
| JDict (kv : list (string * json)).

(** [type(v).__name__], as it appears in the interpreter's messages. *)
Definition type_name (v : json) : string :=
  match v with
  | JNull => "NoneType"
  | JBool _ => "bool"
  | JInt _ => "int"
  | JFloat _ => "float"
  | JStr _ => "str"
  | JList _ => "list"
  | JDict _ => "dict"
  end.

(** ** Exceptions *)

Inductive exn : Type :=
| KeyError (key : string)
| TypeError (arg : string)
| ValueError
| AttributeError (arg : string)
| DataValidationError (msg : string)
| IntegrityError
| DataError
| OverflowError
| HTTPException (code : Z) (description : string).

Inductive result (A : Type) : Type :=
| Ok (a : A)
| Raise (e : exn).
Arguments Ok {A} a.
Arguments Raise {A} e.

Declare Scope result_scope.
Delimit Scope result_scope with result.
Notation "'let?' x ':=' c 'in' k" :=
  (match c with Ok x => k | Raise e => Raise e end)
    (at level 10, x name, c at level 100, k at level 200) : result_scope.
Local Open Scope result_scope.

(** ** Dictionaries and iteration *)

Fixpoint assoc (k : string) (kv : list (string * json)) : option json :=
  match kv with
  | [] => None
  | (k', v) :: rest => if String.eqb k k' then Some v else assoc k rest
  end.

(** [data[key]] for a string [key]. *)
Definition getitem (data : json) (key : string) : result json :=
  match data with
  | JDict kv =>
      match assoc key kv with
      | Some v => Ok v
      | None => Raise (KeyError key)
      end
  | JList _ => Raise (TypeError "list indices must be integers or slices, not str")
  | JStr _ => Raise (TypeError "string indices must be integers")
  | v => Raise (TypeError ("'" ++ type_name v ++ "' object is not subscriptable"))
  end.

(** [data.keys()]. *)
Definition keys (data : json) : result (list string) :=
  match data with
  | JDict kv => Ok (map fst kv)
  | v => Raise (AttributeError ("'" ++ type_name v ++ "' object has no attribute 'keys'"))
  end.

Definition contains (k : string) (ks : list string) : bool :=
  existsb (String.eqb k) ks.

(** [data.get(key)]: [None] when the key is absent. *)
Definition dict_get (data : json) (key : string) : result json :=
  match data with
  | JDict kv => Ok (match assoc key kv with Some v => v | None => JNull end)
  | v => Raise (AttributeError ("'" ++ type_name v ++ "' object has no attribute 'get'"))
  end.

Fixpoint chars (s : string) : list json :=
  match s with
  | EmptyString => []
  | String c rest => JStr (String c EmptyString) :: chars rest
  end.

(** The elements a [for] loop draws from a value. *)
Definition iterate (v : json) : result (list json) :=
  match v with
  | JList l => Ok l
  | JStr s => Ok (chars s)
  | JDict kv => Ok (map (fun p => JStr (fst p)) kv)
  | v => Raise (TypeError ("'" ++ type_name v ++ "' object is not iterable"))
  end.

(** [str(n)] for an integer. *)
Definition str_of_int (n : Z) : string := NilZero.string_of_int (Z.to_int n).

(** ** Calendar dates *)

Record date : Type := mkDate { year : Z; month : Z; day : Z }.

Definition is_leap (y : Z) : bool :=
  (y mod 4 =? 0) && (negb (y mod 100 =? 0) || (y mod 400 =? 0)).

Definition days_in_month (y m : Z) : Z :=
  if m =? 2 then (if is_leap y then 29 else 28)
  else if (m =? 4) || (m =? 6) || (m =? 9) || (m =? 11) then 30
  else 31.

(** The invariant of every [datetime.date] object. *)
Definition date_valid (d : date) : bool :=
  (1 <=? year d) && (year d <=? 9999) &&
  (1 <=? month d) && (month d <=? 12) &&
  (1 <=? day d) && (day d <=? days_in_month (year d) (month d)).

Definition digit_char (n : Z) : ascii := ascii_of_N (Z.to_N (48 + n mod 10)).

Definition digit_val (c : ascii) : option Z :=
  let n := Z.of_N (N_of_ascii c) in
  if (48 <=? n) && (n <=? 57) then Some (n - 48) else None.

Definition pad2 (n : Z) (rest : string) : string :=
  String (digit_char (n / 10)) (String (digit_char n) rest).

Definition pad4 (n : Z) (rest : string) : string :=
  String (digit_char (n / 1000)) (String (digit_char (n / 100)) (pad2 n rest)).

(** [d.isoformat()]: [YYYY-MM-DD]. *)
Definition isoformat (d : date) : string :=
  pad4 (year d) (String "-" (pad2 (month d) (String "-" (pad2 (day d) EmptyString)))).

Definition num2 (a b : ascii) : option Z :=
  match digit_val a, digit_val b with
  | Some x, Some y => Some (10 * x + y)
  | _, _ => None
  end.

Definition num4 (a b c d : ascii) : option Z :=
  match num2 a b, num2 c d with
  | Some x, Some y => Some (100 * x + y)
  | _, _ => None
  end.

(** [date.fromisoformat(v)] on the extended format [YYYY-MM-DD], the one
    every version of the interpreter reads: a value that is not a [str]
    is a [TypeError], a string that is not a date of that format a
    [ValueError].  The formats later versions also read (the basic format
    and the week dates, strings of 7, 8 or 10 characters) are not
    modelled: the properties below rely on a refusal only for a string of
    another length. *)
Definition fromisoformat (v : json) : result date :=
  match v with
  | JStr (String y1 (String y2 (String y3 (String y4 (String "-"
      (String m1 (String m2 (String "-" (String d1 (String d2 EmptyString)))))))))) =>
      match num4 y1 y2 y3 y4, num2 m1 m2, num2 d1 d2 with
      | Some y, Some m, Some d =>
          let r := mkDate y m d in
          if date_valid r then Ok r else Raise ValueError
      | _, _, _ => Raise ValueError
      end
  | JStr _ => Raise ValueError
  | _ => Raise (TypeError "fromisoformat: argument must be str")
  end.

(** ** [class Item] *)

Module Item.

(** The mapped columns of an instance; [JNull] is Python's [None]. *)
Record t : Type := mk {
  id : json;
  product_id : json;
  price : json;
  quantity : json;
  order_id : json;
  status : json
}.

(** [Item()]: no attribute set yet. *)
Definition new : t := mk JNull JNull JNull JNull JNull JNull.

(** Attribute assignment, [self.a = v]. *)
Definition set_id (v : json) (self : t) : t :=
  mk v (product_id self) (price self) (quantity self) (order_id self) (status self).
Definition set_product_id (v : json) (self : t) : t :=
  mk (id self) v (price self) (quantity self) (order_id self) (status self).
Definition set_price (v : json) (self : t) : t :=
  mk (id self) (product_id self) v (quantity self) (order_id self) (status self).
Definition set_quantity (v : json) (self : t) : t :=
  mk (id self) (product_id self) (price self) v (order_id self) (status self).
Definition set_order_id (v : json) (self : t) : t :=
  mk (id self) (product_id self) (price self) (quantity self) v (status self).
Definition set_status (v : json) (self : t) : t :=
  mk (id self) (product_id self) (price self) (quantity self) (order_id self) v.

Definition serialize (self : t) : json :=
  JDict [ ("id", id self); ("product_id", product_id self); ("price", price self);
          ("quantity", quantity self); ("order_id", order_id self);
          ("status", status self) ].

(** The assignments inside the [try], in the order of the source. *)
Definition deserialize_body (self : t) (data : json) : result t :=
  let? v := getitem data "id" in
  let self := set_id v self in
  let? v := getitem data "product_id" in
  let self := set_product_id v self in
  let? v := getitem data "price" in
  let self := set_price v self in
  let? v := getitem data "quantity" in
  let self := set_quantity v self in
  let? v := getitem data "order_id" in
  let self := set_order_id v self in
  let? v := getitem data "status" in
  let self := set_status v self in
  Ok self.

(** [except KeyError as error: raise DataValidationError(...)]. *)
Definition deserialize (self : t) (data : json) : result t :=
  match deserialize_body self data with
  | Raise (KeyError key) => Raise (DataValidationError ("Invalid Item: missing " ++ key))
  | r => r
  end.

End Item.

(** ** [class Order] *)

Module Order.

(** [id] is unset or an integer: [deserialize] never assigns it, the
    handlers assign the integer of the URL.  [date_created] is unset or a
    [datetime.date].  [items] is the relationship collection. *)
Record t : Type := mk {
  id : option Z;
  name : json;
  address : json;
  date_created : option date;
  items : list Item.t
}.

(** [Order()]. *)
Definition new : t := mk None JNull JNull None [].

Definition set_id (v : option Z) (self : t) : t :=
  mk v (name self) (address self) (date_created self) (items self).
Definition set_name (v : json) (self : t) : t :=
  mk (id self) v (address self) (date_created self) (items self).
Definition set_address (v : json) (self : t) : t :=
  mk (id self) (name self) v (date_created self) (items self).
Definition set_date_created (v : option date) (self : t) : t :=
  mk (id self) (name self) (address self) v (items self).
(** [self.items.append(item)]. *)
Definition items_append (item : Item.t) (self : t) : t :=
  mk (id self) (name self) (address self) (date_created self) (items self ++ [item]).

Definition json_of_id (k : option Z) : json :=
  match k with Some z => JInt z | None => JNull end.

(** The dictionary literal calls [self.date_created.isoformat()], which
    an unset date does not have; the loop then appends the items. *)
Definition serialize (self : t) : result json :=
  match date_created self with
  | None => Raise (AttributeError "'NoneType' object has no attribute 'isoformat'")
  | Some d =>
      Ok (JDict [ ("id", json_of_id (id self));
                  ("name", name self);
                  ("address", address self);
                  ("date_created", JStr (isoformat d));
                  ("items", JList (map Item.serialize (items self))) ])
  end.

(** [for json_item in item_list: ...]. *)
Fixpoint deserialize_items (self : t) (item_list : list json) : result t :=
  match item_list with
  | [] => Ok self
  | json_item :: rest =>
      let? item := Item.deserialize Item.new json_item in
      deserialize_items (items_append item self) rest
  end.

Definition deserialize_body (self : t) (data : json) : result t :=
  let? v := getitem data "name" in
  let self := set_name v self in
  let? v := getitem data "address" in
  let self := set_address v self in
  let item_list := JList [] in
  let? ks := keys data in
  let? self :=
    (if contains "date_created" ks
     then let? v := getitem data "date_created" in
          let? d := fromisoformat v in
          Ok (set_date_created (Some d) self)
     else Ok self) in
  let? ks := keys data in
  let? item_list :=
    (if contains "items" ks then dict_get data "items" else Ok item_list) in
  let? l := iterate item_list in
  deserialize_items self l.

Definition deserialize (self : t) (data : json) : result t :=
  match deserialize_body self data with
  | Raise (KeyError key) => Raise (DataValidationError ("Invalid order: missing " ++ key))
  | Raise (TypeError arg) =>
      Raise (DataValidationError
               ("Invalid order: body of request contained bad or no data - " ++ arg))
  | r => r
  end.

End Order.

(** ** The relational store

    The database client is an external collaborator.  What the code relies
    on is modelled here: two tables, primary keys assigned by the store,
    the [nullable=False] and [default=] clauses of the schema, and a
    commit that either applies a whole flush or nothing.  Integers are
    those of 64 bits, an integer given for the [Float] column is stored
    as the nearest float, and a collection is read back in the order of
    the keys.  A value of another type than its column's is kept as
    given: what a store makes of it (a conversion, a refusal) is not
    modelled, and neither are string lengths and the foreign key. *)

Record OrderRow : Type := mkOrderRow {
  row_id : Z;
  row_name : json;
  row_address : json;
  row_date_created : date
}.

Record Database : Type := mkDatabase {
  order_table : list OrderRow;
  item_table : list Item.t
}.

(** The calls that reach the database client. *)
Inductive db_call : Type :=
| Query_get (table : string) (key : Z)
| Query_all (table : string)
| Query_delete (table : string)
| Session_add
| Session_delete
| Session_commit.

(** [import_date] is the value of [date.today()] when the module was
    imported: the column default is evaluated once. *)
Record World : Type := mkWorld {
  db : Database;
  calls : list db_call;
  import_date : date
}.

Definition is_null (v : json) : bool :=
  match v with JNull => true | _ => false end.

(** [cls.id == k] on a row. *)
Definition has_pk (k : Z) (i : Item.t) : bool :=
  match Item.id i with JInt z => z =? k | _ => false end.

(** [cls.order_id == k] on a row. *)
Definition belongs_to (k : Z) (i : Item.t) : bool :=
  match Item.order_id i with JInt z => z =? k | _ => false end.

Definition item_keys (rows : list Item.t) : list Z :=
  flat_map (fun i => match Item.id i with JInt z => [z] | _ => [] end) rows.

(** The next primary key the store hands out: above every key in use. *)
Definition next_key (used : list Z) : Z := 1 + fold_right Z.max 0 used.

(** The integers the store can hold and the driver can bind. *)
Definition in_key_range (k : Z) : bool := (- 2 ^ 63 <=? k) && (k <? 2 ^ 63).

(** What an [Integer] column gives back for a value: an integer that
    does not fit cannot be bound. *)
Definition integer_column (v : json) : result json :=
  match v with
  | JInt z => if in_key_range z then Ok v else Raise OverflowError
  | _ => Ok v
  end.

(** [float(z)]: the integer nearest to [z] that has 53 significant bits,
    ties going to the even one. *)
Definition round_to_double (z : Z) : Z :=
  let a := Z.abs z in
  let e := Z.log2 a - 52 in
  if e <=? 0 then z
  else
    let q := a / 2 ^ e in
    let r := a mod 2 ^ e in
    let half := 2 ^ (e - 1) in
    let q' := if (half <? r) || ((r =? half) && Z.odd q) then q + 1 else q in
    Z.sgn z * (q' * 2 ^ e).

(** What the [Float] column gives back for a value: an integer comes
    back as a float, and one too large for a float cannot be converted. *)
Definition float_column (v : json) : result json :=
  match v with
  | JInt z =>
      let r := round_to_double z in
      if Z.abs r <? 2 ^ 1024 then Ok (JFloat (inject_Z r)) else Raise OverflowError
  | _ => Ok v
  end.

(** A new row takes its place in the order of the keys: before the first
    row of a greater key. *)
Fixpoint insert_by_key (k : Z) (row : Item.t) (rows : list Item.t) : list Item.t :=
  match rows with
  | [] => [row]
  | r :: rest =>
      match Item.id r with
      | JInt z => if k <? z then row :: r :: rest else r :: insert_by_key k row rest
      | _ => r :: insert_by_key k row rest
      end
  end.

(** INSERT of one pending item.  An unset [id] takes the next key, a given
    one is used as it is and must be free; [quantity] has [default=1]. *)
Definition insert_item (i : Item.t) (d : Database) : result (Item.t * Database) :=
  let? k :=
    (match Item.id i with
     | JNull => Ok (next_key (item_keys (item_table d)))
     | JInt z =>
         if in_key_range z
         then (if existsb (has_pk z) (item_table d) then Raise IntegrityError else Ok z)
         else Raise OverflowError
     | _ => Raise DataError
     end) in
  let q := if is_null (Item.quantity i) then JInt 1 else Item.quantity i in
  let? product_id := integer_column (Item.product_id i) in
  let? price := float_column (Item.price i) in
  let? quantity := integer_column q in
  let? order_id := integer_column (Item.order_id i) in
  if is_null product_id || is_null price || is_null (Item.status i)
  then Raise IntegrityError
  else
    let row := Item.mk (JInt k) product_id price quantity order_id (Item.status i) in
    Ok (row, mkDatabase (order_table d) (insert_by_key k row (item_table d))).

(** The items appended to an order's collection are flushed with the
    order: each gets the order's key as [order_id]. *)
Fixpoint insert_items (oid : Z) (pending : list Item.t) (d : Database) : result Database :=
  match pending with
  | [] => Ok d
  | i :: rest =>
      let? p := insert_item (Item.set_order_id (JInt oid) i) d in
      insert_items oid rest (snd p)
  end.

(** UPDATE of the row whose key is [k]; the row as it is read back comes
    with the new state. *)
Definition update_item_row (k : Z) (i : Item.t) (d : Database)
  : result (Item.t * Database) :=
  let? product_id := integer_column (Item.product_id i) in
  let? price := float_column (Item.price i) in
  let? quantity := integer_column (Item.quantity i) in
  let? order_id := integer_column (Item.order_id i) in
  if is_null product_id || is_null price || is_null quantity || is_null (Item.status i)
  then Raise IntegrityError
  else
    let row := Item.mk (JInt k) product_id price quantity order_id (Item.status i) in
    Ok (row, mkDatabase (order_table d)
               (map (fun r => if has_pk k r then row else r) (item_table d))).

Definition delete_item_rows (f : Item.t -> bool) (d : Database) : Database :=
  mkDatabase (order_table d) (filter (fun r => negb (f r)) (item_table d)).

Definition delete_order_row (k : Z) (d : Database) : Database :=
  mkDatabase (filter (fun r => negb (row_id r =? k)) (order_table d)) (item_table d).

(** What an [Order] instance shows once loaded: its row, and as [items]
    the rows of [item] that refer to it. *)
Definition load_order (d : Database) (r : OrderRow) : Order.t :=
  Order.mk (Some (row_id r)) (row_name r) (row_address r) (Some (row_date_created r))
           (filter (belongs_to (row_id r)) (item_table d)).

(** ** The monad of handlers: the world is threaded, an exception stops
    the rest of the handler. *)

Definition M (A : Type) : Type := World -> result A * World.

Definition ret {A} (a : A) : M A := fun w => (Ok a, w).

Definition bind {A B} (m : M A) (k : A -> M B) : M B :=
  fun w => match m w with
           | (Ok a, w') => k a w'
           | (Raise e, w') => (Raise e, w')
           end.

Definition raise {A} (e : exn) : M A := fun w => (Raise e, w).

Definition lift {A} (r : result A) : M A := fun w => (r, w).

Definition call (c : db_call) : M unit :=
  fun w => (Ok tt, mkWorld (db w) (calls w ++ [c]) (import_date w)).

Definition get_db : M Database := fun w => (Ok (db w), w).

Definition put_db (d : Database) : M unit :=
  fun w => (Ok tt, mkWorld d (calls w) (import_date w)).

Declare Scope monad_scope.
Delimit Scope monad_scope with monad.
Notation "x <- c ;; k" := (bind c (fun x => k))
  (at level 61, c at next level, right associativity) : monad_scope.
Notation "c ;; k" := (bind c (fun _ => k))
  (at level 61, right associativity) : monad_scope.
Local Open Scope monad_scope.

(** [db.session.commit()] of a flush that may be refused: the new state
    is stored, or the exception is raised and the tables stay. *)
Definition commit (flush : Database -> result Database) : M unit :=
  call Session_commit ;;
  d <- get_db ;;
  d' <- lift (flush d) ;;
  put_db d'.

(** ** Persistence methods of [Item] *)

Definition Item_create (self : Item.t) : M Item.t :=
  let self := Item.set_id JNull self in
  call Session_add ;;
  call Session_commit ;;
  d <- get_db ;;
  p <- lift (insert_item self d) ;;
  put_db (snd p) ;;
  ret (fst p).

(** The handlers reset [self.id] to the key of the loaded row before they
    call [update]; that key selects the row.  After the commit the
    instance shows the row as stored. *)
Definition Item_update (self : Item.t) : M Item.t :=
  match Item.id self with
  | JInt k =>
      call Session_commit ;;
      d <- get_db ;;
      p <- lift (update_item_row k self d) ;;
      put_db (snd p) ;;
      ret (fst p)
  | _ => call Session_commit ;; raise DataError
  end.

Definition Item_delete (self : Item.t) : M unit :=
  call Session_delete ;;
  match Item.id self with
  | JInt k => commit (fun d => Ok (delete_item_rows (has_pk k) d))
  | _ => commit (fun d => Ok d)
  end.

Definition Item_all : M (list Item.t) :=
  call (Query_all "item") ;;
  d <- get_db ;;
  ret (item_table d).

(** [cls.query.get(by_id)]: the row of that key, [None] when there is
    none.  A key outside the 64 bits of the store is the key of no row
    and cannot be bound as a parameter: [OverflowError]. *)
Definition Item_find (by_id : Z) : M (option Item.t) :=
  call (Query_get "item" by_id) ;;
  d <- get_db ;;
  match find (has_pk by_id) (item_table d) with
  | Some i => ret (Some i)
  | None => if in_key_range by_id then ret None else raise OverflowError
  end.

(** A [Query] object: the criterion it will select by, not yet run. *)
Definition Query : Type := Item.t -> bool.

(** The rows a query yields when it is iterated. *)
Definition fetch (q : Query) (d : Database) : list Item.t := filter q (item_table d).

(** A column compared with a bound, both numbers. *)
Definition as_number (v : json) : option Q :=
  match v with
  | JInt z => Some (inject_Z z)
  | JFloat q => Some q
  | _ => None
  end.

Definition sql_le (a b : json) : bool :=
  match as_number a, as_number b with
  | Some x, Some y => Qle_bool x y
  | _, _ => false
  end.

Definition Item_find_by_product_id (product_id : Z) : Query :=
  fun i => match Item.product_id i with JInt z => z =? product_id | _ => false end.

Definition Item_find_by_order_id (order_id : Z) : Query := belongs_to order_id.

(** [filter(cls.price <= max_price).filter(cls.price >= min_price)]. *)
Definition Item_find_by_price (max_price min_price : json) : Query :=
  fun i => sql_le (Item.price i) max_price && sql_le min_price (Item.price i).

(** [Query.delete()]: one DELETE for every selected row. *)
Definition Query_bulk_delete (q : Query) : M unit :=
  call (Query_delete "item") ;;
  d <- get_db ;;
  put_db (delete_item_rows q d).

(** ** Persistence methods of [Order] *)

(** The row of the order of key [k]; a key outside the 64 bits of the
    store is the key of no row. *)
Definition find_order_row (k : Z) (d : Database) : option OrderRow :=
  if in_key_range k then find (fun r => row_id r =? k) (order_table d) else None.

(** INSERT of the order with the defaults of the schema, then of its
    items. *)
Definition insert_order (today : date) (self : Order.t) (d : Database)
  : result (Z * Database) :=
  let k := next_key (map row_id (order_table d)) in
  let addr := if is_null (Order.address self) then JStr "Invalid Address"
              else Order.address self in
  let day := match Order.date_created self with Some x => x | None => today end in
  let row := mkOrderRow k (Order.name self) addr day in
  let? d' := insert_items k (Order.items self)
               (mkDatabase (order_table d ++ [row]) (item_table d)) in
  Ok (k, d').

Definition Order_create (self : Order.t) : M Order.t :=
  let self := Order.set_id None self in
  call Session_add ;;
  call Session_commit ;;
  fun w =>
    match insert_order (import_date w) self (db w) with
    | Raise e => (Raise e, w)
    | Ok (k, d') =>
        match find_order_row k d' with
        | Some r => (Ok (load_order d' r), mkWorld d' (calls w) (import_date w))
        | None => (Raise DataError, w)
        end
    end.

(** UPDATE of the row [k] from the attributes, then INSERT of the items
    that were appended to the loaded collection: the collection was
    loaded as the rows that refer to [k], what follows them is new. *)
Definition update_order (k : Z) (self : Order.t) (d : Database) : result Database :=
  match Order.date_created self with
  | None => Raise IntegrityError
  | Some day =>
      let row := mkOrderRow k (Order.name self) (Order.address self) day in
      let loaded := filter (belongs_to k) (item_table d) in
      let pending := skipn (List.length loaded) (Order.items self) in
      insert_items k pending
        (mkDatabase (map (fun r => if row_id r =? k then row else r) (order_table d))
                    (item_table d))
  end.

Definition Order_update (self : Order.t) : M Order.t :=
  match Order.id self with
  | Some k =>
      commit (update_order k self) ;;
      d <- get_db ;;
      match find_order_row k d with
      | Some r => ret (load_order d r)
      | None => raise DataError
      end
  | None => call Session_commit ;; raise DataError
  end.

Definition Order_delete (self : Order.t) : M unit :=
  call Session_delete ;;
  match Order.id self with
  | Some k => commit (fun d => Ok (delete_order_row k d))
  | None => commit (fun d => Ok d)
  end.

Definition Order_all : M (list Order.t) :=
  call (Query_all "order") ;;
  d <- get_db ;;
  ret (map (load_order d) (order_table d)).

(** [cls.query.get(by_id)]: the driver cannot bind a key outside the 64
    bits of the store. *)
Definition Order_find (by_id : Z) : M (option Order.t) :=
  call (Query_get "order" by_id) ;;
  if in_key_range by_id
  then d <- get_db ;; ret (option_map (load_order d) (find_order_row by_id d))
  else raise OverflowError.

(** ** The HTTP layer *)

(** Modelled from the spec: [service/common/status.py] is not among the
    sources; each name carries the HTTP status code it spells. *)
Module status.
Definition HTTP_200_OK : Z := 200.
Definition HTTP_201_CREATED : Z := 201.
Definition HTTP_204_NO_CONTENT : Z := 204.
Definition HTTP_404_NOT_FOUND : Z := 404.
Definition HTTP_415_UNSUPPORTED_MEDIA_TYPE : Z := 415.
End status.

(** The parts of [flask.request] the handlers read: the headers by their
    canonical names, the parsed JSON body, and the root the external URLs
    are built on. *)
Record request : Type := mkRequest {
  headers : list (string * string);
  get_json : json;
  url_root : string
}.

Inductive content : Type :=
| Json (j : json)
| Text (s : string).

(** What a view function returns: body, status, headers. *)
Record response : Type := mkResponse {
  body : content;
  status_code : Z;
  response_headers : list (string * string)
}.

Fixpoint header (name : string) (hs : list (string * string)) : option string :=
  match hs with
  | [] => None
  | (n, v) :: rest => if String.eqb name n then Some v else header name rest
  end.

(** [abort(code, description)]. *)
Definition abort {A} (code : Z) (description : string) : M A :=
  raise (HTTPException code description).

(** The status the client sees: that of the response, or that of the
    [abort].  Any other exception leaves the handler uncaught. *)
Definition http_status (r : result response) : option Z :=
  match r with
  | Ok resp => Some (status_code resp)
  | Raise (HTTPException code _) => Some code
  | Raise _ => None
  end.

Definition check_content_type (req : request) (content_type : string) : M unit :=
  match header "Content-Type" (headers req) with
  | None =>
      abort status.HTTP_415_UNSUPPORTED_MEDIA_TYPE
            ("Content-Type must be " ++ content_type)
  | Some v =>
      if String.eqb v content_type then ret tt
      else abort status.HTTP_415_UNSUPPORTED_MEDIA_TYPE
                 ("Content-Type must be " ++ content_type)
  end.

(** [f"Order with id '{k}' was not found."] and its variants. *)
Definition not_found_msg (kind : string) (k : Z) (ending : string) : string :=
  kind ++ " with id '" ++ str_of_int k ++ "' " ++ ending.

(** GET /orders *)
Definition list_orders : M response :=
  orders <- Order_all ;;
  results <- lift (fold_right
                     (fun o acc => let? l := acc in
                                   let? s := Order.serialize o in Ok (s :: l))
                     (Ok []) orders) ;;
  ret (mkResponse (Json (JList results)) status.HTTP_200_OK []).

(** GET /orders/<order_id> *)
Definition get_orders (order_id : Z) : M response :=
  order <- Order_find order_id ;;
  match order with
  | None => abort status.HTTP_404_NOT_FOUND (not_found_msg "Item" order_id "was not found.")
  | Some order =>
      s <- lift (Order.serialize order) ;;
      ret (mkResponse (Json s) status.HTTP_200_OK [])
  end.

(** POST /orders *)
Definition create_orders (req : request) : M response :=
  check_content_type req "application/json" ;;
  let order := Order.new in
  order <- lift (Order.deserialize order (get_json req)) ;;
  order <- Order_create order ;;
  message <- lift (Order.serialize order) ;;
  let location_url :=
    url_root req ++ "orders/" ++
    match Order.id order with Some k => str_of_int k | None => "None" end in
  ret (mkResponse (Json message) status.HTTP_201_CREATED [("Location", location_url)]).

(** PUT /orders/<order_id> *)
Definition update_orders (order_id : Z) (req : request) : M response :=
  check_content_type req "application/json" ;;
  order <- Order_find order_id ;;
  match order with
  | None => abort status.HTTP_404_NOT_FOUND (not_found_msg "Order" order_id "was not found.")
  | Some order =>
      order <- lift (Order.deserialize order (get_json req)) ;;
      let order := Order.set_id (Some order_id) order in
      order <- Order_update order ;;
      s <- lift (Order.serialize order) ;;
      ret (mkResponse (Json s) status.HTTP_200_OK [])
  end.

(** DELETE /orders/<order_id>.  After the [abort] the order is there, so
    the later [if order_obj:] holds; a [Query] object is always true, so
    [items_retrieve.delete()] always runs. *)
Definition delete_orders (order_id : Z) : M response :=
  order_obj <- Order_find order_id ;;
  match order_obj with
  | None => abort status.HTTP_404_NOT_FOUND (not_found_msg "Order" order_id "was not found.")
  | Some order_obj =>
      let items_retrieve := Item_find_by_order_id order_id in
      Query_bulk_delete items_retrieve ;;
      Order_delete order_obj ;;
      ret (mkResponse (Text EmptyString) status.HTTP_204_NO_CONTENT [])
  end.

(** GET /orders/<order_id>/items/<item_id> *)
Definition list_item (order_id item_id : Z) : M response :=
  order <- Order_find order_id ;;
  match order with
  | None => abort status.HTTP_404_NOT_FOUND (not_found_msg "Order" order_id "was not found.")
  | Some _ =>
      item <- Item_find item_id ;;
      match item with
      | None => abort status.HTTP_404_NOT_FOUND (not_found_msg "Item" item_id "was not found.")
      | Some item => ret (mkResponse (Json (Item.serialize item)) status.HTTP_200_OK [])
      end
  end.

(** GET /orders/<order_id>/items *)
Definition list_all_items (order_id : Z) : M response :=
  order <- Order_find order_id ;;
  match order with
  | None => abort status.HTTP_404_NOT_FOUND (not_found_msg "Order" order_id "was not found.")
  | Some order =>
      let results := map Item.serialize (Order.items order) in
      ret (mkResponse (Json (JList results)) status.HTTP_200_OK [])
  end.

(** DELETE /orders/<order_id>/items/<item_id> *)
Definition delete_items (order_id item_id : Z) : M response :=
  order <- Order_find order_id ;;
  match order with
  | None => abort status.HTTP_404_NOT_FOUND (not_found_msg "Order" order_id "was not found.")
  | Some _ =>
      item <- Item_find item_id ;;
      match item with
      | Some item => Item_delete item
      | None => ret tt
      end ;;
      ret (mkResponse (Text EmptyString) status.HTTP_204_NO_CONTENT [])
  end.

(** POST /orders/<order_id>/items *)
Definition create_items (order_id : Z) (req : request) : M response :=
  check_content_type req "application/json" ;;
  order <- Order_find order_id ;;
  match order with
  | None => abort status.HTTP_404_NOT_FOUND (not_found_msg "Order" order_id "was not found.")
  | Some _ =>
      let data := get_json req in
      let item := Item.new in
      item <- lift (Item.deserialize item data) ;;
      let item := Item.set_order_id (JInt order_id) item in
      item <- Item_create item ;;
      ret (mkResponse (Json (Item.serialize item)) status.HTTP_201_CREATED [])
  end.

(** PUT /orders/<order_id>/items/<item_id> *)
Definition update_item (order_id item_id : Z) (req : request) : M response :=
  check_content_type req "application/json" ;;
  order <- Order_find order_id ;;
  match order with
  | None => abort status.HTTP_404_NOT_FOUND (not_found_msg "Item" order_id "was not found.")
  | Some _ =>
      item <- Item_find item_id ;;
      match item with
      | None =>
          abort status.HTTP_404_NOT_FOUND
                (not_found_msg "Order" item_id "could not be found.")
      | Some item =>
          item <- lift (Item.deserialize item (get_json req)) ;;
          let item := Item.set_id (JInt item_id) item in
          item <- Item_update item ;;
          ret (mkResponse (Json (Item.serialize item)) status.HTTP_200_OK [])
      end
  end.

(** ** Queries on [Order] and the route by date *)

Definition date_eqb (a b : date) : bool :=
  (year a =? year b) && (month a =? month b) && (day a =? day b).

(** A [Query] on the table of orders. *)
Definition OrderQuery : Type := OrderRow -> bool.

(** The orders a query yields when it is iterated. *)
Definition fetch_orders (q : OrderQuery) (d : Database) : list Order.t :=
  map (load_order d) (filter q (order_table d)).

(** [cls.query.filter(cls.name == name)]. *)
Definition Order_find_by_name (name : string) : OrderQuery :=
  fun r => match row_name r with JStr s => String.eqb s name | _ => false end.

(** [date.fromisoformat(date_iso)] runs twice, first as an argument of the
    logging call, then inside the filter; a malformed string raises before
    a query exists. *)
Definition Order_find_by_date (date_iso : string) : result OrderQuery :=
  let? _ := fromisoformat (JStr date_iso) in
  let? d := fromisoformat (JStr date_iso) in
  Ok (fun r => date_eqb (row_date_created r) d).

(** [for order in order_list: ret.append(order.serialize())]. *)
Fixpoint serialize_orders (order_list : list Order.t) : result (list json) :=
  match order_list with
  | [] => Ok []
  | order :: rest =>
      let? s := Order.serialize order in
      let? l := serialize_orders rest in
      Ok (s :: l)
  end.

(** GET /orders/date/<date_iso> *)
Definition order_retrieve_based_on_date (date_iso : string) : M response :=
  q <- lift (Order_find_by_date date_iso) ;;
  call (Query_all "order") ;;
  d <- get_db ;;
  let order_list := fetch_orders q d in
  match order_list with
  | [] =>
      abort status.HTTP_404_NOT_FOUND
            ("No order was found for date '" ++ date_iso ++ "'")
  | _ =>
      ret_list <- lift (serialize_orders order_list) ;;
      ret (mkResponse (Json (JList ret_list)) status.HTTP_200_OK [])
  end.

(** The keys [Item.deserialize] reads, in the order it reads them. *)
Definition item_required_keys : list string :=
  [ "id"; "product_id"; "price"; "quantity"; "order_id"; "status" ].

(** ** The URL map *)

(** The view functions modelled above, applied to the variables of their
    URL and to the request: those of the URL map but [index], which
    renders a template, and [list_all_items_prices]. *)
Definition views (req : request) (order_id item_id : Z) (date_iso : string)
  : list (M response) :=
  [ list_orders; get_orders order_id; create_orders req; update_orders order_id req;
    delete_orders order_id; list_item order_id item_id; list_all_items order_id;
    delete_items order_id item_id; create_items order_id req;
    update_item order_id item_id req; order_retrieve_based_on_date date_iso ].

(** Those registered for GET. *)
Definition get_views (order_id item_id : Z) (date_iso : string) : list (M response) :=
  [ list_orders; get_orders order_id; list_item order_id item_id;
    list_all_items order_id; order_retrieve_based_on_date date_iso ].

(** Those whose URL names an order. *)
Definition order_views (req : request) (order_id item_id : Z) : list (M response) :=
  [ get_orders order_id; update_orders order_id req; delete_orders order_id;
    list_item order_id item_id; list_all_items order_id; delete_items order_id item_id;
    create_items order_id req; update_item order_id item_id req ].

(** ** Values of the type of their column *)

(** A string, as a [String] column holds. *)
Definition is_str (v : json) : bool :=
  match v with JStr _ => true | _ => false end.

(** A string or [None], as a nullable [String] column holds. *)
Definition is_text (v : json) : bool :=
  match v with JStr _ | JNull => true | _ => false end.

(** A float, as the [Float] column holds. *)
Definition is_float (v : json) : bool :=
  match v with JFloat _ => true | _ => false end.

(** An integer of the store, as an [Integer] column holds. *)
Definition is_int64 (v : json) : bool :=
  match v with JInt z => in_key_range z | _ => false end.

(** ** Sample data *)

Definition json_request (data : json) : request :=
  mkRequest [("Content-Type", "application/json")] data "http://localhost/".

Definition empty_db : Database := mkDatabase [] [].

Definition world_of (d : Database) : World := mkWorld d [] (mkDate 2023 4 1).

Definition order5 : OrderRow := mkOrderRow 5 (JStr "A") (JStr "1 Main St") (mkDate 2023 3 7).

Definition item1 : Item.t :=
  Item.mk (JInt 1) (JInt 7) (JFloat (999 # 100)) (JInt 2) (JInt 5) (JStr "pending").

Definition item9 : Item.t :=
  Item.mk (JInt 9) (JInt 3) (JFloat (5 # 2)) (JInt 1) (JInt 8) (JStr "shipped").

Definition sample_db : Database := mkDatabase [order5] [item1].

Definition spec_item_body : json :=
  JDict [ ("product_id", JInt 7); ("price", JFloat (999 # 100));
          ("quantity", JInt 2); ("status", JStr "pending") ].

Definition order_body : json :=
  JDict [ ("name", JStr "B"); ("address", JStr "2 Side St");
          ("items", JList [Item.serialize (Item.set_id JNull item9)]) ].

(** The answer of POST /orders with [order_body] on [sample_db]. *)
Definition created_response : response :=
  mkResponse
    (Json (JDict
       [ ("id", JInt 6); ("name", JStr "B"); ("address", JStr "2 Side St");
         ("date_created", JStr "2023-04-01");
         ("items", JList [ Item.serialize
                             (Item.mk (JInt 2) (JInt 3) (JFloat (5 # 2))
                                      (JInt 1) (JInt 6) (JStr "shipped")) ]) ]))
    status.HTTP_201_CREATED [("Location", "http://localhost/orders/6")].

(** * Properties *)

(** ** Running a handler *)

Ltac run_handler :=
  unfold get_orders, create_orders, update_orders, delete_orders, list_item,
    list_all_items, delete_items, create_items, update_item, check_content_type,
    Order_find, Item_find, Item_delete, Item_create, Query_bulk_delete, Order_delete,
    commit, abort, bind, ret, raise, lift, call, get_db, put_db;
  simpl.

Lemma has_pk_key (k : Z) (i : Item.t) :
  has_pk k i = true -> Item.id i = JInt k.
Proof.
  unfold has_pk. destruct (Item.id i); try discriminate.
  intros H. apply Z.eqb_eq in H. now subst.
Qed.

Lemma find_has_pk (k : Z) (rows : list Item.t) (i : Item.t) :
  find (has_pk k) rows = Some i -> Item.id i = JInt k /\ In i rows.
Proof.
  intros H. apply find_some in H. destruct H as [Hin Hpk].
  split; [now apply has_pk_key | assumption].
Qed.

Lemma find_after_delete (k : Z) (rows : list Item.t) :
  find (has_pk k) (filter (fun r => negb (has_pk k r)) rows) = None.
Proof.
  induction rows as [| r rows IH]; simpl; [reflexivity |].
  destruct (has_pk k r) eqn:E; simpl; [assumption |].
  now rewrite E.
Qed.

Lemma find_order_row_some (k : Z) (d : Database) (r : OrderRow) :
  find_order_row k d = Some r ->
  row_id r = k /\ In r (order_table d) /\ in_key_range k = true.
Proof.
  unfold find_order_row. destruct (in_key_range k); [| discriminate].
  intros H. apply find_some in H. destruct H as [Hin Hb].
  apply Z.eqb_eq in Hb. now repeat split.
Qed.

Lemma order_find_found (k : Z) (w : World) (r : OrderRow) :
  find_order_row k (db w) = Some r ->
  Order_find k w
  = (Ok (Some (load_order (db w) r)),
     mkWorld (db w) (calls w ++ [Query_get "order" k]) (import_date w)).
Proof.
  intros H. destruct (find_order_row_some _ _ _ H) as (_ & _ & Hrange).
  unfold Order_find, bind, call, get_db, ret. rewrite Hrange. cbn [db]. now rewrite H.
Qed.

Lemma order_find_missing (k : Z) (w : World) :
  find_order_row k (db w) = None ->
  Order_find k w
  = (if in_key_range k then Ok None else Raise OverflowError,
     mkWorld (db w) (calls w ++ [Query_get "order" k]) (import_date w)).
Proof.
  intros H. unfold Order_find, bind, call, get_db, ret, raise.
  destruct (in_key_range k); [| reflexivity]. cbn [db]. now rewrite H.
Qed.

Lemma item_find_found (k : Z) (w : World) (i : Item.t) :
  find (has_pk k) (item_table (db w)) = Some i ->
  Item_find k w
  = (Ok (Some i), mkWorld (db w) (calls w ++ [Query_get "item" k]) (import_date w)).
Proof. intros H. unfold Item_find, bind, call, get_db, ret. cbn [db]. now rewrite H. Qed.

Lemma item_find_missing (k : Z) (w : World) :
  find (has_pk k) (item_table (db w)) = None ->
  Item_find k w
  = (if in_key_range k then Ok None else Raise OverflowError,
     mkWorld (db w) (calls w ++ [Query_get "item" k]) (import_date w)).
Proof.
  intros H. unfold Item_find, bind, call, get_db, ret, raise. cbn [db]. rewrite H.
  now destruct (in_key_range k).
Qed.

Lemma check_content_type_cases (req : request) (w : World) :
  check_content_type req "application/json" w = (Ok tt, w)
  \/ exists e, check_content_type req "application/json" w = (Raise e, w).
Proof.
  unfold check_content_type, abort, raise, ret.
  destruct (header "Content-Type" (headers req)) as [v |].
  - destruct (String.eqb v "application/json"); [now left | right; eexists; reflexivity].
  - right; eexists; reflexivity.
Qed.

Lemma check_content_type_accepts (req : request) (w : World) :
  header "Content-Type" (headers req) = Some "application/json" ->
  check_content_type req "application/json" w = (Ok tt, w).
Proof. intros H. unfold check_content_type. now rewrite H. Qed.

Lemma serialize_loaded (d : Database) (r : OrderRow) :
  Order.serialize (load_order d r)
  = Ok (JDict [ ("id", JInt (row_id r)); ("name", row_name r);
                ("address", row_address r);
                ("date_created", JStr (isoformat (row_date_created r)));
                ("items", JList (map Item.serialize
                                     (filter (belongs_to (row_id r)) (item_table d)))) ]).
Proof. reflexivity. Qed.

(** ** DELETE /orders/<id> on an unknown id *)

(** C1, as the specification states it, fails: with order 5 alone in the
    store, DELETE /orders/6 does not answer 204. *)
Lemma delete_orders_unknown_id_not_204 :
  find_order_row 6 sample_db = None /\
  http_status (fst (delete_orders 6 (world_of sample_db)))
    <> Some status.HTTP_204_NO_CONTENT.
Proof. split; [reflexivity | vm_compute; discriminate]. Qed.

(** C1, amended: for every order id that the store can hold as a key
    (an integer of 64 bits) and that names no stored order, DELETE
    /orders/<id> aborts with 404 and the message that names the order and
    the id, and the tables are left as they were. *)
Theorem delete_orders_unknown_id_404 (w : World) (order_id : Z)
  (Hrange : in_key_range order_id = true)
  (Hmissing : find_order_row order_id (db w) = None) :
  fst (delete_orders order_id w)
    = Raise (HTTPException status.HTTP_404_NOT_FOUND
               (not_found_msg "Order" order_id "was not found."))
  /\ db (snd (delete_orders order_id w)) = db w.
Proof.
  unfold delete_orders, bind. rewrite (order_find_missing _ _ Hmissing), Hrange.
  split; reflexivity.
Qed.

Lemma delete_orders_unknown_id_404_witness :
  fst (delete_orders 6 (world_of sample_db))
    = Raise (HTTPException status.HTTP_404_NOT_FOUND
               (not_found_msg "Order" 6 "was not found."))
  /\ db (snd (delete_orders 6 (world_of sample_db))) = db (world_of sample_db).
Proof. apply (delete_orders_unknown_id_404 (world_of sample_db) 6); reflexivity. Defined.

(** ** The messages of the not-found answers *)

(** C4 on the code: GET /orders/999 with no order 999 answers 404 but
    calls the missing order an item; PUT /orders/999/items/1 does the
    same; PUT /orders/5/items/42 with order 5 present and no item 42
    calls the missing item an order. *)
Theorem not_found_messages_name_the_other_kind :
  fst (get_orders 999 (world_of empty_db))
    = Raise (HTTPException 404 "Item with id '999' was not found.")
  /\ fst (update_item 999 1 (json_request (Item.serialize item1)) (world_of empty_db))
    = Raise (HTTPException 404 "Item with id '999' was not found.")
  /\ fst (update_item 5 42 (json_request (Item.serialize item1)) (world_of sample_db))
    = Raise (HTTPException 404 "Order with id '42' could not be found.")
  /\ fst (update_orders 999 (json_request (Item.serialize item1)) (world_of empty_db))
    = Raise (HTTPException 404 "Order with id '999' was not found.")
  /\ fst (list_item 5 42 (world_of sample_db))
    = Raise (HTTPException 404 "Item with id '42' was not found.").
Proof. repeat split; vm_compute; reflexivity. Qed.

(** ** Content type *)

Lemma check_content_type_rejects (req : request) (w : World)
  (Hct : header "Content-Type" (headers req) <> Some "application/json") :
  check_content_type req "application/json" w
    = (Raise (HTTPException status.HTTP_415_UNSUPPORTED_MEDIA_TYPE
                "Content-Type must be application/json"), w).
Proof.
  unfold check_content_type.
  destruct (header "Content-Type" (headers req)) as [v |]; [| reflexivity].
  destruct (String.eqb_spec v "application/json") as [-> | Hne].
  - now contradiction Hct.
  - reflexivity.
Qed.

(** C7: a POST or PUT whose Content-Type header is absent or differs from
    application/json is answered 415 by each of the four handlers, and the
    world after it is the world before it: no table changed and no call
    reached the database. *)
Theorem wrong_content_type_415_before_persistence
  (req : request) (w : World) (order_id item_id : Z)
  (Hct : header "Content-Type" (headers req) <> Some "application/json") :
  let unsupported :=
    (Raise (HTTPException status.HTTP_415_UNSUPPORTED_MEDIA_TYPE
              "Content-Type must be application/json") : result response, w) in
  create_orders req w = unsupported
  /\ update_orders order_id req w = unsupported
  /\ create_items order_id req w = unsupported
  /\ update_item order_id item_id req w = unsupported.
Proof.
  intros unsupported. subst unsupported.
  unfold create_orders, update_orders, create_items, update_item, bind.
  rewrite (check_content_type_rejects req w Hct).
  repeat split.
Qed.

Lemma wrong_content_type_415_before_persistence_witness :
  let req := mkRequest [("Content-Type", "text/plain")] (Item.serialize item1)
               "http://localhost/" in
  let w := world_of sample_db in
  create_orders req w = (Raise (HTTPException 415 "Content-Type must be application/json"), w)
  /\ update_orders 5 req w = (Raise (HTTPException 415 "Content-Type must be application/json"), w)
  /\ create_items 5 req w = (Raise (HTTPException 415 "Content-Type must be application/json"), w)
  /\ update_item 5 1 req w = (Raise (HTTPException 415 "Content-Type must be application/json"), w).
Proof.
  intros req w.
  apply (wrong_content_type_415_before_persistence req w 5 1).
  simpl. discriminate.
Defined.

(** ** The nested item routes *)

(** C9: with order [O] stored and item [I] stored under another order,
    GET /orders/<O.id>/items/<I.id> answers 200 with the serialized [I],
    and DELETE on the same path answers 204 and removes [I]. *)
Theorem nested_item_routes_ignore_ownership
  (w : World) (order_id item_id : Z) (O : OrderRow) (I : Item.t)
  (HO : find_order_row order_id (db w) = Some O)
  (HI : find (has_pk item_id) (item_table (db w)) = Some I)
  (Hother : Item.order_id I <> JInt order_id) :
  fst (list_item order_id item_id w)
    = Ok (mkResponse (Json (Item.serialize I)) status.HTTP_200_OK [])
  /\ fst (delete_items order_id item_id w)
    = Ok (mkResponse (Text EmptyString) status.HTTP_204_NO_CONTENT [])
  /\ find (has_pk item_id) (item_table (db (snd (delete_items order_id item_id w)))) = None
  /\ ~ In I (item_table (db (snd (delete_items order_id item_id w)))).
Proof.
  destruct (find_has_pk _ _ _ HI) as [Hid Hin].
  unfold list_item, delete_items, bind.
  rewrite (order_find_found _ _ _ HO).
  erewrite !item_find_found by exact HI.
  unfold Item_delete, commit, bind, call, get_db, put_db, lift, ret. rewrite Hid. simpl.
  repeat split.
  - apply find_after_delete.
  - intros H. apply filter_In in H. destruct H as [_ H].
    apply find_some in HI. destruct HI as [_ HI]. rewrite HI in H. discriminate.
Qed.

Lemma nested_item_routes_ignore_ownership_witness :
  let w := world_of (mkDatabase [order5] [item1; item9]) in
  fst (list_item 5 9 w) = Ok (mkResponse (Json (Item.serialize item9)) 200 [])
  /\ fst (delete_items 5 9 w) = Ok (mkResponse (Text EmptyString) 204 [])
  /\ find (has_pk 9) (item_table (db (snd (delete_items 5 9 w)))) = None
  /\ ~ In item9 (item_table (db (snd (delete_items 5 9 w)))).
Proof.
  intros w.
  apply (nested_item_routes_ignore_ownership w 5 9 order5 item9).
  - reflexivity.
  - reflexivity.
  - discriminate.
Defined.

(** C10, as the specification states it, fails: order 5 is stored and
    no item has the id 9223372036854775808, which is 2^63 and one more
    than the store can hold; DELETE /orders/5/items/9223372036854775808
    ends with an [OverflowError] and answers no 204. *)
Lemma delete_items_unholdable_item_id_not_204 :
  find_order_row 5 sample_db = Some order5
  /\ find (has_pk 9223372036854775808) (item_table sample_db) = None
  /\ fst (delete_items 5 9223372036854775808 (world_of sample_db)) = Raise OverflowError
  /\ http_status (fst (delete_items 5 9223372036854775808 (world_of sample_db)))
     <> Some status.HTTP_204_NO_CONTENT.
Proof. repeat split; vm_compute; discriminate. Qed.

(** C10, amended: with the order stored and no item of that id, the id
    being one the store can hold as a key (an integer of 64 bits), DELETE
    /orders/<order_id>/items/<item_id> answers 204 and both tables are
    what they were. *)
Theorem delete_items_unknown_item_is_noop
  (w : World) (order_id item_id : Z) (O : OrderRow)
  (HO : find_order_row order_id (db w) = Some O)
  (Hrange : in_key_range item_id = true)
  (Hmissing : find (has_pk item_id) (item_table (db w)) = None) :
  fst (delete_items order_id item_id w)
    = Ok (mkResponse (Text EmptyString) status.HTTP_204_NO_CONTENT [])
  /\ db (snd (delete_items order_id item_id w)) = db w.
Proof.
  unfold delete_items, bind. rewrite (order_find_found _ _ _ HO).
  erewrite item_find_missing by exact Hmissing. rewrite Hrange. split; reflexivity.
Qed.

Lemma delete_items_unknown_item_is_noop_witness :
  fst (delete_items 5 42 (world_of sample_db))
    = Ok (mkResponse (Text EmptyString) status.HTTP_204_NO_CONTENT [])
  /\ db (snd (delete_items 5 42 (world_of sample_db))) = db (world_of sample_db).
Proof.
  apply (delete_items_unknown_item_is_noop (world_of sample_db) 5 42 order5); reflexivity.
Defined.

(** ** Keys handed out by the store *)

Lemma le_fold_max (k : Z) (l : list Z) : In k l -> k <= fold_right Z.max 0 l.
Proof.
  induction l as [| x l IH]; simpl; [contradiction |].
  intros [-> | H]; [lia |]. specialize (IH H). lia.
Qed.

Lemma has_pk_in_keys (k : Z) (rows : list Item.t) :
  existsb (has_pk k) rows = true -> In k (item_keys rows).
Proof.
  intros H. apply existsb_exists in H. destruct H as [i [Hin Hpk]].
  unfold item_keys. apply in_flat_map. exists i. split; [assumption |].
  rewrite (has_pk_key _ _ Hpk). now left.
Qed.

Lemma next_key_is_fresh (rows : list Item.t) :
  existsb (has_pk (next_key (item_keys rows))) rows = false.
Proof.
  destruct (existsb _ rows) eqn:E; [| reflexivity].
  apply has_pk_in_keys, le_fold_max in E. unfold next_key in E. lia.
Qed.

Lemma insert_by_key_above (k : Z) (row : Item.t) (rows : list Item.t) :
  (forall z, In z (item_keys rows) -> z < k) ->
  insert_by_key k row rows = (rows ++ [row])%list.
Proof.
  induction rows as [| r rows IH]; simpl; [reflexivity |].
  intros Hall. unfold item_keys in Hall. simpl in Hall.
  destruct (Item.id r) as [| b | z | q | s | l | kv];
    try (f_equal; apply IH; intros z' Hz'; apply Hall; exact Hz').
  assert (Hz : z < k) by (apply Hall; simpl; now left).
  destruct (Z.ltb_spec k z) as [Hlt | _]; [lia |].
  f_equal. apply IH. intros z' Hz'. apply Hall. simpl. now right.
Qed.

Lemma insert_by_next_key (row : Item.t) (rows : list Item.t) :
  insert_by_key (next_key (item_keys rows)) row rows = (rows ++ [row])%list.
Proof.
  apply insert_by_key_above. intros z Hz. apply le_fold_max in Hz.
  unfold next_key. lia.
Qed.

Lemma in_insert_by_key (k : Z) (row i : Item.t) (rows : list Item.t) :
  In i (insert_by_key k row rows) <-> i = row \/ In i rows.
Proof.
  induction rows as [| r rows IH]; simpl; [intuition congruence |].
  destruct (Item.id r) as [| b | z | q | s | l | kv]; simpl;
    try solve [rewrite IH; intuition congruence].
  destruct (k <? z); simpl; [intuition congruence | rewrite IH; intuition congruence].
Qed.

(** ** POST /orders/5/items *)

(** C2, as the specification states it, fails: with order 5 stored and
    the JSON content type, the body with exactly the keys product_id,
    price, quantity and status raises the validation error for the
    missing id; no 201 is answered and no item is stored. *)
Lemma create_items_spec_body_is_rejected :
  find_order_row 5 sample_db = Some order5
  /\ create_items 5 (json_request spec_item_body) (world_of sample_db)
     = (Raise (DataValidationError "Invalid Item: missing id"),
        mkWorld sample_db [Query_get "order" 5] (mkDate 2023 4 1))
  /\ http_status (fst (create_items 5 (json_request spec_item_body) (world_of sample_db)))
     <> Some status.HTTP_201_CREATED.
Proof. repeat split; vm_compute; discriminate. Qed.

(** C2, amended: when order 5 is stored, POST /orders/5/items with the
    JSON content type and a body that maps product_id to 7, price to 9.99,
    quantity to 2, status to pending and also has the keys id and order_id
    (whatever their values) answers 201; the body carries an id assigned
    by the store, hence used by no stored item before, and order_id 5, and
    the item is stored. *)
Theorem create_items_with_all_keys_201
  (w : World) (req : request) (O : OrderRow)
  (kv : list (string * json)) (given_id given_order_id : json)
  (Hct : header "Content-Type" (headers req) = Some "application/json")
  (Hbody : get_json req = JDict kv)
  (HO : find_order_row 5 (db w) = Some O)
  (Hid : assoc "id" kv = Some given_id)
  (Hproduct : assoc "product_id" kv = Some (JInt 7))
  (Hprice : assoc "price" kv = Some (JFloat (999 # 100)))
  (Hquantity : assoc "quantity" kv = Some (JInt 2))
  (Horder : assoc "order_id" kv = Some given_order_id)
  (Hstatus : assoc "status" kv = Some (JStr "pending")) :
  let k := next_key (item_keys (item_table (db w))) in
  let stored :=
    Item.mk (JInt k) (JInt 7) (JFloat (999 # 100)) (JInt 2) (JInt 5) (JStr "pending") in
  fst (create_items 5 req w)
    = Ok (mkResponse (Json (Item.serialize stored)) status.HTTP_201_CREATED [])
  /\ existsb (has_pk k) (item_table (db w)) = false
  /\ item_table (db (snd (create_items 5 req w))) = (item_table (db w) ++ [stored])%list
  /\ order_table (db (snd (create_items 5 req w))) = order_table (db w).
Proof.
  intros k stored.
  unfold create_items, check_content_type, bind. rewrite Hct. simpl.
  unfold Order_find, bind, call, get_db, ret. simpl. rewrite HO. simpl.
  unfold lift, Item.deserialize, Item.deserialize_body, getitem.
  rewrite Hbody, Hid, Hproduct, Hprice, Hquantity, Horder, Hstatus.
  unfold Item_create, bind, call, get_db, put_db, lift, ret, insert_item.
  cbn -[next_key item_keys insert_by_key]. fold k.
  unfold k. rewrite insert_by_next_key.
  repeat split. apply next_key_is_fresh.
Qed.

Lemma create_items_with_all_keys_201_witness :
  let req := json_request (Item.serialize (Item.set_id JNull (Item.set_order_id JNull item1))) in
  let stored :=
    Item.mk (JInt 2) (JInt 7) (JFloat (999 # 100)) (JInt 2) (JInt 5) (JStr "pending") in
  fst (create_items 5 req (world_of sample_db))
    = Ok (mkResponse (Json (Item.serialize stored)) status.HTTP_201_CREATED [])
  /\ existsb (has_pk 2) (item_table sample_db) = false
  /\ item_table (db (snd (create_items 5 req (world_of sample_db)))) = [item1; stored]
  /\ order_table (db (snd (create_items 5 req (world_of sample_db)))) = [order5].
Proof.
  intros req stored.
  apply (create_items_with_all_keys_201 (world_of sample_db) req order5
           [ ("id", JNull); ("product_id", JInt 7); ("price", JFloat (999 # 100));
             ("quantity", JInt 2); ("order_id", JNull); ("status", JStr "pending") ]
           JNull JNull); reflexivity.
Defined.

(** ** The address of an order *)

(** C3, as the specification states it, fails: a mapping with name and
    items and no address is refused with the validation error for the
    missing address, and POST /orders with it stores nothing. *)
Lemma order_without_address_is_rejected :
  let data := JDict [ ("name", JStr "A"); ("items", JList []) ] in
  Order.deserialize Order.new data
    = Raise (DataValidationError "Invalid order: missing address")
  /\ create_orders (json_request data) (world_of empty_db)
    = (Raise (DataValidationError "Invalid order: missing address"), world_of empty_db).
Proof. split; reflexivity. Qed.

(** C3, amended: the address key is required.  For every mapping that
    supplies name and omits address, deserialization into any order raises
    the validation error [Invalid order: missing address], and POST
    /orders with that body and the JSON content type raises it with the
    world untouched: no order is persisted. *)
Theorem order_deserialize_requires_address
  (self : Order.t) (w : World) (req : request)
  (kv : list (string * json)) (given_name : json)
  (Hct : header "Content-Type" (headers req) = Some "application/json")
  (Hbody : get_json req = JDict kv)
  (Hname : assoc "name" kv = Some given_name)
  (Haddress : assoc "address" kv = None) :
  Order.deserialize self (JDict kv)
    = Raise (DataValidationError "Invalid order: missing address")
  /\ create_orders req w
    = (Raise (DataValidationError "Invalid order: missing address"), w).
Proof.
  assert (Hd : forall o, Order.deserialize o (JDict kv)
                 = Raise (DataValidationError "Invalid order: missing address")).
  { intros o. unfold Order.deserialize, Order.deserialize_body, getitem.
    rewrite Hname, Haddress. reflexivity. }
  split; [apply Hd |].
  unfold create_orders, check_content_type, bind. rewrite Hct. simpl.
  unfold lift. rewrite Hbody, Hd. reflexivity.
Qed.

Lemma order_deserialize_requires_address_witness :
  let data := JDict [ ("name", JStr "A"); ("items", JList []) ] in
  Order.deserialize Order.new data
    = Raise (DataValidationError "Invalid order: missing address")
  /\ create_orders (json_request data) (world_of sample_db)
    = (Raise (DataValidationError "Invalid order: missing address"), world_of sample_db).
Proof.
  intros data.
  apply (order_deserialize_requires_address Order.new (world_of sample_db)
           (json_request data) [ ("name", JStr "A"); ("items", JList []) ] (JStr "A"));
    reflexivity.
Defined.

(** ** The price filter *)

Lemma sql_le_numbers (a b : json) (x y : Q) :
  as_number a = Some x -> as_number b = Some y ->
  (sql_le a b = true <-> (x <= y)%Q).
Proof.
  intros Ha Hb. unfold sql_le. rewrite Ha, Hb. apply Qle_bool_iff.
Qed.

(** C5: for numeric bounds and a numeric price, an item is among the rows
    of [find_by_price(max_price, min_price)] exactly when it is stored and
    [min_price <= price <= max_price]; a stored item priced at either
    bound of a non-empty range is among them. *)
Theorem find_by_price_is_inclusive
  (d : Database) (max_price min_price : json) (i : Item.t) (p lo hi : Q)
  (Hp : as_number (Item.price i) = Some p)
  (Hlo : as_number min_price = Some lo)
  (Hhi : as_number max_price = Some hi) :
  (In i (fetch (Item_find_by_price max_price min_price) d)
     <-> In i (item_table d) /\ (lo <= p)%Q /\ (p <= hi)%Q)
  /\ (In i (item_table d) -> (p == lo)%Q -> (lo <= hi)%Q ->
      In i (fetch (Item_find_by_price max_price min_price) d))
  /\ (In i (item_table d) -> (p == hi)%Q -> (lo <= hi)%Q ->
      In i (fetch (Item_find_by_price max_price min_price) d)).
Proof.
  assert (Hiff : In i (fetch (Item_find_by_price max_price min_price) d)
                 <-> In i (item_table d) /\ (lo <= p)%Q /\ (p <= hi)%Q).
  { unfold fetch, Item_find_by_price. rewrite filter_In, andb_true_iff.
    rewrite (sql_le_numbers _ _ p hi Hp Hhi), (sql_le_numbers _ _ lo p Hlo Hp).
    tauto. }
  split; [exact Hiff |].
  split; intros Hin Heq Hrange; apply Hiff; (split; [assumption |]);
    rewrite Heq; split; solve [assumption | apply Qle_refl].
Qed.

Lemma find_by_price_is_inclusive_witness :
  let d := mkDatabase [order5] [item1; item9] in
  (In item9 (fetch (Item_find_by_price (JInt 4) (JFloat (5 # 2))) d)
     <-> In item9 (item_table d) /\ (5 # 2 <= 5 # 2)%Q /\ (5 # 2 <= inject_Z 4)%Q)
  /\ (In item9 (item_table d) -> (5 # 2 == 5 # 2)%Q -> (5 # 2 <= inject_Z 4)%Q ->
      In item9 (fetch (Item_find_by_price (JInt 4) (JFloat (5 # 2))) d))
  /\ (In item9 (item_table d) -> (5 # 2 == inject_Z 4)%Q -> (5 # 2 <= inject_Z 4)%Q ->
      In item9 (fetch (Item_find_by_price (JInt 4) (JFloat (5 # 2))) d)).
Proof.
  intros d.
  apply (find_by_price_is_inclusive d (JInt 4) (JFloat (5 # 2)) item9
           (5 # 2) (5 # 2) (inject_Z 4)); reflexivity.
Defined.

(** ** Dates written and read back *)

Lemma digit_val_char (n : Z) : digit_val (digit_char n) = Some (n mod 10).
Proof.
  unfold digit_char.
  pose proof (Z.mod_pos_bound n 10 ltac:(lia)) as Hb.
  remember (n mod 10) as m eqn:Em. clear Em.
  assert (Hm : m = 0 \/ m = 1 \/ m = 2 \/ m = 3 \/ m = 4 \/ m = 5 \/ m = 6 \/
               m = 7 \/ m = 8 \/ m = 9) by lia.
  repeat (destruct Hm as [-> | Hm]; [reflexivity |]). subst m. reflexivity.
Qed.

Lemma num2_pad (n : Z) :
  0 <= n < 100 -> num2 (digit_char (n / 10)) (digit_char n) = Some n.
Proof.
  intros Hn. unfold num2. rewrite !digit_val_char. f_equal.
  Z.div_mod_to_equations. lia.
Qed.

Lemma num4_pad (n : Z) :
  0 <= n < 10000 ->
  num4 (digit_char (n / 1000)) (digit_char (n / 100))
       (digit_char (n / 10)) (digit_char n) = Some n.
Proof.
  intros Hn. unfold num4, num2. rewrite !digit_val_char. f_equal.
  Z.div_mod_to_equations. lia.
Qed.

Lemma days_in_month_le_31 (y m : Z) : days_in_month y m <= 31.
Proof.
  unfold days_in_month.
  destruct (m =? 2); [destruct (is_leap y); lia |].
  destruct ((m =? 4) || (m =? 6) || (m =? 9) || (m =? 11)); lia.
Qed.

Lemma fromisoformat_isoformat (d : date) :
  date_valid d = true -> fromisoformat (JStr (isoformat d)) = Ok d.
Proof.
  intros Hv. pose proof Hv as Hv'. unfold date_valid in Hv'.
  repeat rewrite andb_true_iff in Hv'.
  destruct Hv' as [[[[[Hy1 Hy2] Hm1] Hm2] Hd1] Hd2].
  apply Z.leb_le in Hy1, Hy2, Hm1, Hm2, Hd1, Hd2.
  pose proof (days_in_month_le_31 (year d) (month d)) as H31.
  destruct d as [y m dd]. simpl in *.
  unfold isoformat, pad4, pad2. simpl.
  rewrite (num4_pad y), (num2_pad m), (num2_pad dd) by lia.
  rewrite Hv. reflexivity.
Qed.

(** ** Serialize then deserialize *)

Lemma item_deserialize_serialize (self x : Item.t) :
  Item.deserialize self (Item.serialize x) = Ok x.
Proof. destruct x. reflexivity. Qed.

Lemma deserialize_items_serialized (self : Order.t) (l : list Item.t) :
  Order.deserialize_items self (map Item.serialize l)
  = Ok (Order.mk (Order.id self) (Order.name self) (Order.address self)
                 (Order.date_created self) (Order.items self ++ l)).
Proof.
  revert self. induction l as [| x l IH]; intros self;
    cbn [map Order.deserialize_items].
  - rewrite app_nil_r. now destruct self.
  - rewrite item_deserialize_serialize, IH. simpl.
    now rewrite <- app_assoc.
Qed.

(** C6: a fresh item deserialized from [serialize(i)] is [i], id included.
    An order whose date is set serializes, and a fresh order deserialized
    from the result has the name, the address, the date and the items of
    the original; its id stays unset, which is the one field that
    differs. *)
Theorem serialize_deserialize_roundtrip
  (i : Item.t) (x : Order.t) (d : date)
  (Hdate : Order.date_created x = Some d)
  (Hvalid : date_valid d = true) :
  Item.deserialize Item.new (Item.serialize i) = Ok i
  /\ exists s : json,
       Order.serialize x = Ok s
       /\ Order.deserialize Order.new s = Ok (Order.set_id None x).
Proof.
  split; [apply item_deserialize_serialize |].
  unfold Order.serialize. rewrite Hdate. eexists. split; [reflexivity |].
  unfold Order.deserialize, Order.deserialize_body.
  cbn -[fromisoformat isoformat Item.serialize Order.deserialize_items].
  rewrite (fromisoformat_isoformat d Hvalid).
  cbn -[Item.serialize Order.deserialize_items].
  rewrite deserialize_items_serialized. simpl.
  unfold Order.set_id. rewrite Hdate. reflexivity.
Qed.

Lemma serialize_deserialize_roundtrip_witness :
  let x := load_order sample_db order5 in
  Item.deserialize Item.new (Item.serialize item9) = Ok item9
  /\ exists s : json,
       Order.serialize x = Ok s
       /\ Order.deserialize Order.new s = Ok (Order.set_id None x).
Proof.
  intros x.
  apply (serialize_deserialize_roundtrip item9 x (mkDate 2023 3 7)); reflexivity.
Defined.

(** ** PUT /orders/<id> *)

Lemma contains_assoc (k : string) (kv : list (string * json)) :
  contains k (map fst kv) = match assoc k kv with Some _ => true | None => false end.
Proof.
  unfold contains. induction kv as [| [k' v] kv IH]; simpl; [reflexivity |].
  destruct (String.eqb k k'); [reflexivity | exact IH].
Qed.

Lemma deserialize_items_extends (l : list json) (self o : Order.t) :
  Order.deserialize_items self l = Ok o ->
  Order.id o = Order.id self /\ Order.name o = Order.name self
  /\ Order.address o = Order.address self
  /\ Order.date_created o = Order.date_created self
  /\ exists new, Order.items o = (Order.items self ++ new)%list.
Proof.
  revert self. induction l as [| j l IH]; intros self; simpl.
  - intros H. injection H as <-. repeat split. exists []. now rewrite app_nil_r.
  - destruct (Item.deserialize Item.new j) as [item | e]; [| discriminate].
    intros H. apply IH in H. simpl in H.
    destruct H as (Hid & Hn & Ha & Hd & new & Hitems).
    repeat split; try assumption.
    exists (item :: new). now rewrite Hitems, <- app_assoc.
Qed.

Lemma order_deserialize_body_ok (self o : Order.t) (data : json) :
  Order.deserialize self data = Ok o -> Order.deserialize_body self data = Ok o.
Proof.
  unfold Order.deserialize.
  destruct (Order.deserialize_body self data) as [a | e]; [trivial |].
  destruct e; discriminate.
Qed.

(** What a successful [Order.deserialize] did to [self]. *)
Lemma order_deserialize_ok (self o : Order.t) (data : json) :
  Order.deserialize self data = Ok o ->
  getitem data "name" = Ok (Order.name o)
  /\ getitem data "address" = Ok (Order.address o)
  /\ match getitem data "date_created" with
     | Ok v => exists d, fromisoformat v = Ok d /\ Order.date_created o = Some d
     | Raise _ => Order.date_created o = Order.date_created self
     end
  /\ Order.id o = Order.id self
  /\ exists new, Order.items o = (Order.items self ++ new)%list.
Proof.
  intros H. apply order_deserialize_body_ok in H.
  unfold Order.deserialize_body in H.
  destruct data as [| b | z | q | s | l | kv]; try discriminate H.
  unfold getitem, keys, dict_get in *.
  rewrite contains_assoc in H.
  destruct (assoc "name" kv) as [vn |]; [| discriminate H].
  destruct (assoc "address" kv) as [va |]; [| discriminate H].
  assert (Hitems : forall self', 
            (let? item_list :=
               (if contains "items" (map fst kv)
                then Ok match assoc "items" kv with Some v => v | None => JNull end
                else Ok (JList [])) in
             let? l := iterate item_list in Order.deserialize_items self' l) = Ok o ->
            Order.id o = Order.id self' /\ Order.name o = Order.name self'
            /\ Order.address o = Order.address self'
            /\ Order.date_created o = Order.date_created self'
            /\ exists new, Order.items o = (Order.items self' ++ new)%list).
  { intros self' H'.
    destruct (contains "items" (map fst kv)).
    - destruct (iterate _) as [l |]; [| discriminate H'].
      now apply deserialize_items_extends in H'.
    - now apply deserialize_items_extends in H'. }
  destruct (assoc "date_created" kv) as [vd |].
  - destruct (fromisoformat vd) as [d |]; [| discriminate H].
    apply Hitems in H. simpl in H. destruct H as (Hid & Hn & Ha & Hd & Hnew).
    rewrite Hn, Ha. repeat split; try assumption. now exists d.
  - apply Hitems in H. simpl in H. destruct H as (Hid & Hn & Ha & Hd & Hnew).
    rewrite Hn, Ha. repeat split; assumption.
Qed.

Lemma integer_column_ok (v v' : json) : integer_column v = Ok v' -> v' = v.
Proof.
  unfold integer_column. destruct v; try (intros H; now injection H).
  destruct (in_key_range z); [intros H; now injection H | discriminate].
Qed.

Lemma float_column_float (v v' : json) :
  float_column v = Ok v' -> is_float v = true -> v' = v.
Proof.
  destruct v; try discriminate. intros H _. now injection H.
Qed.

(** What a successful INSERT of an item stored. *)
Lemma insert_item_stored (i row : Item.t) (d d' : Database) :
  insert_item i d = Ok (row, d') ->
  order_table d' = order_table d
  /\ (forall x, In x (item_table d') <-> x = row \/ In x (item_table d))
  /\ Item.product_id row = Item.product_id i
  /\ float_column (Item.price i) = Ok (Item.price row)
  /\ Item.order_id row = Item.order_id i
  /\ Item.status row = Item.status i.
Proof.
  unfold insert_item.
  destruct (match Item.id i with JNull => _ | JInt z => _ | _ => _ end) as [key |];
    [| discriminate].
  destruct (integer_column (Item.product_id i)) as [pid |] eqn:Epid; [| discriminate].
  destruct (float_column (Item.price i)) as [pr |] eqn:Epr; [| discriminate].
  destruct (integer_column (if is_null (Item.quantity i) then JInt 1 else Item.quantity i))
    as [q |] eqn:Eq; [| discriminate].
  destruct (integer_column (Item.order_id i)) as [oid |] eqn:Eoid; [| discriminate].
  destruct (_ || _ || _); [discriminate |].
  intros H. injection H as <- <-. cbn [order_table item_table Item.product_id Item.price
    Item.order_id Item.status].
  apply integer_column_ok in Epid, Eoid. subst pid oid.
  repeat split.
  - apply in_insert_by_key.
  - apply in_insert_by_key.
Qed.

(** What a successful flush of the items appended to an order stored. *)
Lemma insert_items_stored (k : Z) (pending : list Item.t) (d d' : Database) :
  insert_items k pending d = Ok d' ->
  order_table d' = order_table d
  /\ exists rows,
       (forall x, In x (item_table d') <-> In x (item_table d) \/ In x rows)
       /\ Forall2 (fun p row =>
                     Item.product_id row = Item.product_id p
                     /\ float_column (Item.price p) = Ok (Item.price row)
                     /\ Item.status row = Item.status p
                     /\ Item.order_id row = JInt k) pending rows.
Proof.
  revert d. induction pending as [| p pending IH]; intros d; simpl.
  - intros H. injection H as <-. split; [reflexivity |].
    exists []. split; [simpl; tauto | constructor].
  - destruct (insert_item (Item.set_order_id (JInt k) p) d) as [[row d1] |] eqn:E;
      [| discriminate].
    apply insert_item_stored in E. cbn [Item.set_order_id Item.product_id Item.price
      Item.order_id Item.status] in E.
    destruct E as (Ho & Hin & Hpid & Hpr & Hoid & Hst).
    simpl. intros H. apply IH in H. destruct H as (Ho' & rows & Hin' & Hall).
    split; [congruence |].
    exists (row :: rows). split.
    + intros x. rewrite Hin', Hin. simpl. intuition congruence.
    + constructor; [repeat split; assumption | assumption].
Qed.

Lemma find_replaced_row (k : Z) (row before : OrderRow) (rows : list OrderRow) :
  row_id row = k ->
  find (fun r => row_id r =? k) rows = Some before ->
  find (fun r => row_id r =? k) (map (fun r => if row_id r =? k then row else r) rows)
  = Some row.
Proof.
  intros Hk. induction rows as [| r rows IH]; simpl; [discriminate |].
  destruct (row_id r =? k) eqn:E.
  - intros _. rewrite Hk, Z.eqb_refl. reflexivity.
  - rewrite E. exact IH.
Qed.

(** What a successful UPDATE of an order stored. *)
Lemma update_order_stored (k : Z) (self : Order.t) (d d' : Database) (before : OrderRow) :
  find_order_row k d = Some before ->
  update_order k self d = Ok d' ->
  exists day rows,
    Order.date_created self = Some day
    /\ find_order_row k d' = Some (mkOrderRow k (Order.name self) (Order.address self) day)
    /\ (forall x, In x (item_table d') <-> In x (item_table d) \/ In x rows)
    /\ Forall2 (fun p row =>
                  Item.product_id row = Item.product_id p
                  /\ float_column (Item.price p) = Ok (Item.price row)
                  /\ Item.status row = Item.status p
                  /\ Item.order_id row = JInt k)
               (skipn (List.length (filter (belongs_to k) (item_table d))) (Order.items self))
               rows.
Proof.
  intros Hbefore. unfold update_order.
  destruct (Order.date_created self) as [day |]; [| discriminate].
  intros H. apply insert_items_stored in H. cbn [order_table item_table] in H.
  destruct H as (Horders & rows & Hrows & Hall).
  exists day, rows. repeat split; try assumption; try (now apply Hrows).
  destruct (find_order_row_some _ _ _ Hbefore) as (_ & _ & Hrange).
  unfold find_order_row in *. rewrite Hrange in *. rewrite Horders.
  now apply (find_replaced_row k _ before).
Qed.

(** What a successful PUT /orders/<id> did, read off the handler. *)
Lemma update_orders_ok (w w' : World) (order_id : Z) (req : request) (resp : response) :
  update_orders order_id req w = (Ok resp, w') ->
  exists (before : OrderRow) (o : Order.t) (row : OrderRow) (j : json),
    find_order_row order_id (db w) = Some before
    /\ Order.deserialize (load_order (db w) before) (get_json req) = Ok o
    /\ update_order order_id (Order.set_id (Some order_id) o) (db w) = Ok (db w')
    /\ find_order_row order_id (db w') = Some row
    /\ Order.serialize (load_order (db w') row) = Ok j
    /\ resp = mkResponse (Json j) status.HTTP_200_OK [].
Proof.
  unfold update_orders, bind.
  destruct (check_content_type_cases req w) as [-> | [e0 ->]]; [| discriminate].
  destruct (find_order_row order_id (db w)) as [before |] eqn:Ebefore.
  2: { rewrite (order_find_missing _ _ Ebefore).
       destruct (in_key_range order_id); discriminate. }
  rewrite (order_find_found _ _ _ Ebefore). unfold lift.
  destruct (Order.deserialize (load_order (db w) before) (get_json req)) as [o |] eqn:Edes;
    [| discriminate].
  unfold Order_update. cbn [Order.set_id Order.id].
  unfold commit, bind, call, get_db, put_db, lift, ret, raise. cbn [db calls import_date].
  destruct (update_order order_id _ (db w)) as [d' |] eqn:Eupd; [| discriminate].
  destruct (update_order_stored _ _ _ _ _ Ebefore Eupd) as (day & rows & _ & Hrow & _).
  cbn [db]. rewrite Hrow, serialize_loaded.
  intros H. injection H as <- <-. cbn [db].
  eexists before, o, _, _. rewrite serialize_loaded.
  repeat split; try eassumption; reflexivity.
Qed.

(** C8, as the specification states it, fails: order 5 is stored with one
    item; PUT /orders/5 with name, address and an empty list of items is
    answered 200, and the stored order still has that item and the date
    it had, neither of which the payload gives. *)
Lemma update_orders_keeps_previous_items :
  let req := json_request
               (JDict [ ("name", JStr "B"); ("address", JStr "X"); ("items", JList []) ]) in
  let w' := snd (update_orders 5 req (world_of sample_db)) in
  fst (Order_find 5 (world_of sample_db))
    = Ok (Some (Order.mk (Some 5) (JStr "A") (JStr "1 Main St")
                         (Some (mkDate 2023 3 7)) [item1]))
  /\ http_status (fst (update_orders 5 req (world_of sample_db))) = Some status.HTTP_200_OK
  /\ dict_get (get_json req) "items" = Ok (JList [])
  /\ fst (Order_find 5 w')
    = Ok (Some (Order.mk (Some 5) (JStr "B") (JStr "X")
                         (Some (mkDate 2023 3 7)) [item1])).
Proof. repeat split. Qed.

(** C8, amended: whenever PUT /orders/<id> is answered with a response,
    the order was stored before and is stored after; its name and its
    address are those of the payload when these are strings or null; its
    date is the one the payload gives under date_created when that key is
    present and the previous date otherwise; and every item it had before
    is still one of its items. *)
Theorem update_orders_overwrites_name_address_only
  (w w' : World) (order_id : Z) (req : request) (resp : response)
  (Hrun : update_orders order_id req w = (Ok resp, w')) :
  exists (before after : OrderRow),
    find_order_row order_id (db w) = Some before
    /\ find_order_row order_id (db w') = Some after
    /\ (forall v, getitem (get_json req) "name" = Ok v -> is_text v = true ->
                  row_name after = v)
    /\ (forall v, getitem (get_json req) "address" = Ok v -> is_text v = true ->
                  row_address after = v)
    /\ match getitem (get_json req) "date_created" with
       | Ok v => fromisoformat v = Ok (row_date_created after)
       | Raise _ => row_date_created after = row_date_created before
       end
    /\ (forall i, In i (Order.items (load_order (db w) before)) ->
                  In i (Order.items (load_order (db w') after))).
Proof.
  apply update_orders_ok in Hrun.
  destruct Hrun as (before & o & row & j & Hbefore & Hdes & Hupd & Hrow & _ & _).
  apply order_deserialize_ok in Hdes.
  destruct Hdes as (Hname & Haddr & Hdate & _ & _).
  destruct (update_order_stored _ _ _ _ _ Hbefore Hupd)
    as (day & rows & Hday & Hrow' & Hin & _).
  rewrite Hrow in Hrow'. injection Hrow' as ->.
  cbn [Order.set_id Order.name Order.address Order.date_created] in *.
  assert (Hkey : row_id before = order_id)
    by (now destruct (find_order_row_some _ _ _ Hbefore)).
  eexists before, _. split; [exact Hbefore |]. split; [exact Hrow |].
  cbn [row_name row_address row_date_created row_id load_order Order.items].
  repeat split.
  - intros v Hv _. rewrite Hname in Hv. now injection Hv.
  - intros v Hv _. rewrite Haddr in Hv. now injection Hv.
  - destruct (getitem (get_json req) "date_created") as [v |].
    + destruct Hdate as (d0 & Hparse & Hset). congruence.
    + simpl in Hdate. congruence.
  - intros i Hi. rewrite Hkey in Hi. apply filter_In in Hi. destruct Hi as [Hi Hb].
    apply filter_In. split; [apply Hin; now left | assumption].
Qed.

Lemma update_orders_overwrites_name_address_only_witness :
  let req := json_request
               (JDict [ ("name", JStr "B"); ("address", JStr "X");
                        ("items", JList [Item.serialize (Item.set_id JNull item9)]) ]) in
  let w' := snd (update_orders 5 req (world_of sample_db)) in
  exists (before after : OrderRow),
    find_order_row 5 (db (world_of sample_db)) = Some before
    /\ find_order_row 5 (db w') = Some after
    /\ (forall v, getitem (get_json req) "name" = Ok v -> is_text v = true ->
                  row_name after = v)
    /\ (forall v, getitem (get_json req) "address" = Ok v -> is_text v = true ->
                  row_address after = v)
    /\ match getitem (get_json req) "date_created" with
       | Ok v => fromisoformat v = Ok (row_date_created after)
       | Raise _ => row_date_created after = row_date_created before
       end
    /\ (forall i, In i (Order.items (load_order (db (world_of sample_db)) before)) ->
                  In i (Order.items (load_order (db w') after))).
Proof.
  intros req w'.
  apply (update_orders_overwrites_name_address_only (world_of sample_db) w' 5 req
           (mkResponse
              (Json (JDict
                 [ ("id", JInt 5); ("name", JStr "B"); ("address", JStr "X");
                   ("date_created", JStr "2023-03-07");
                   ("items", JList [ Item.serialize item1;
                                     Item.serialize
                                       (Item.set_order_id (JInt 5)
                                          (Item.set_id (JInt 2) item9)) ]) ]))
              status.HTTP_200_OK [])).
  reflexivity.
Defined.

(** * Further properties of the models *)

(** ** What [Item.deserialize] requires and what it leaves *)

(** A mapping that lacks some of the six keys is refused with the
    validation error that names the first one lacking, in the order
    id, product_id, price, quantity, order_id, status. *)
Theorem item_deserialize_names_first_missing_key
  (self : Item.t) (kv : list (string * json)) (k : string)
  (Hfirst : find (fun key => negb (contains key (map fst kv))) item_required_keys = Some k) :
  Item.deserialize self (JDict kv)
    = Raise (DataValidationError ("Invalid Item: missing " ++ k)).
Proof.
  unfold item_required_keys in Hfirst. simpl in Hfirst.
  rewrite !contains_assoc in Hfirst.
  unfold Item.deserialize, Item.deserialize_body, getitem.
  destruct (assoc "id" kv); simpl in Hfirst; [| now injection Hfirst as <-].
  destruct (assoc "product_id" kv); simpl in Hfirst; [| now injection Hfirst as <-].
  destruct (assoc "price" kv); simpl in Hfirst; [| now injection Hfirst as <-].
  destruct (assoc "quantity" kv); simpl in Hfirst; [| now injection Hfirst as <-].
  destruct (assoc "order_id" kv); simpl in Hfirst; [| now injection Hfirst as <-].
  destruct (assoc "status" kv); simpl in Hfirst; [discriminate | now injection Hfirst as <-].
Qed.

Lemma item_deserialize_names_first_missing_key_witness :
  Item.deserialize item1
    (JDict [ ("id", JInt 1); ("product_id", JInt 7); ("status", JStr "pending") ])
  = Raise (DataValidationError ("Invalid Item: missing " ++ "price")).
Proof.
  apply (item_deserialize_names_first_missing_key item1
           [ ("id", JInt 1); ("product_id", JInt 7); ("status", JStr "pending") ] "price").
  reflexivity.
Defined.

Lemma item_deserialize_reads (self i : Item.t) (data : json) :
  Item.deserialize self data = Ok i ->
  getitem data "id" = Ok (Item.id i)
  /\ getitem data "product_id" = Ok (Item.product_id i)
  /\ getitem data "price" = Ok (Item.price i)
  /\ getitem data "quantity" = Ok (Item.quantity i)
  /\ getitem data "order_id" = Ok (Item.order_id i)
  /\ getitem data "status" = Ok (Item.status i).
Proof.
  intros Hok. unfold Item.deserialize, Item.deserialize_body in Hok.
  destruct (getitem data "id") as [v1 | e]; [| destruct e; discriminate Hok].
  destruct (getitem data "product_id") as [v2 | e]; [| destruct e; discriminate Hok].
  destruct (getitem data "price") as [v3 | e]; [| destruct e; discriminate Hok].
  destruct (getitem data "quantity") as [v4 | e]; [| destruct e; discriminate Hok].
  destruct (getitem data "order_id") as [v5 | e]; [| destruct e; discriminate Hok].
  destruct (getitem data "status") as [v6 | e]; [| destruct e; discriminate Hok].
  injection Hok as <-. simpl. repeat split.
Qed.

(** When [Item.deserialize] succeeds, each of the six attributes of the
    result is the value the data holds under that key: nothing of the
    instance it was called on is left, the id included. *)
Theorem item_deserialize_overwrites_every_attribute
  (self i : Item.t) (data : json)
  (Hok : Item.deserialize self data = Ok i) :
  getitem data "id" = Ok (Item.id i)
  /\ getitem data "product_id" = Ok (Item.product_id i)
  /\ getitem data "price" = Ok (Item.price i)
  /\ getitem data "quantity" = Ok (Item.quantity i)
  /\ getitem data "order_id" = Ok (Item.order_id i)
  /\ getitem data "status" = Ok (Item.status i).
Proof. exact (item_deserialize_reads self i data Hok). Qed.

Lemma item_deserialize_overwrites_every_attribute_witness :
  let data := Item.serialize item9 in
  getitem data "id" = Ok (Item.id item9)
  /\ getitem data "product_id" = Ok (Item.product_id item9)
  /\ getitem data "price" = Ok (Item.price item9)
  /\ getitem data "quantity" = Ok (Item.quantity item9)
  /\ getitem data "order_id" = Ok (Item.order_id item9)
  /\ getitem data "status" = Ok (Item.status item9).
Proof.
  intros data.
  apply (item_deserialize_overwrites_every_attribute item1 item9 data). reflexivity.
Defined.

(** Data that is not a mapping makes [Item.deserialize] raise a
    [TypeError], which its [except KeyError] does not catch: no validation
    error is produced. *)
Theorem item_deserialize_non_mapping_raises_type_error
  (self : Item.t) (data : json)
  (Hshape : forall kv, data <> JDict kv) :
  exists arg, Item.deserialize self data = Raise (TypeError arg).
Proof.
  destruct data; try (eexists; reflexivity).
  now contradiction (Hshape kv).
Qed.

Lemma item_deserialize_non_mapping_raises_type_error_witness :
  exists arg, Item.deserialize Item.new (JList [JInt 1]) = Raise (TypeError arg).
Proof.
  apply (item_deserialize_non_mapping_raises_type_error Item.new (JList [JInt 1])).
  intros kv H. discriminate H.
Defined.

(** ** What [Order.deserialize] raises and what it leaves *)

Lemma item_deserialize_raises (self : Item.t) (data : json) (e : exn) :
  Item.deserialize self data = Raise e ->
  (exists msg, e = DataValidationError msg) \/ (exists arg, e = TypeError arg).
Proof.
  unfold Item.deserialize, Item.deserialize_body, getitem.
  destruct data; simpl; try (intros H; injection H as <-; right; eexists; reflexivity).
  repeat (match goal with
          | |- context [assoc ?k kv] => destruct (assoc k kv)
          end; simpl;
          try (intros H; injection H as <-; left; eexists; reflexivity)).
  discriminate.
Qed.

Lemma deserialize_items_raises (l : list json) (self : Order.t) (e : exn) :
  Order.deserialize_items self l = Raise e ->
  (exists msg, e = DataValidationError msg) \/ (exists arg, e = TypeError arg).
Proof.
  revert self. induction l as [| j l IH]; intros self; simpl; [discriminate |].
  destruct (Item.deserialize Item.new j) as [item | e0] eqn:E.
  - apply IH.
  - intros H. injection H as <-. now apply item_deserialize_raises in E.
Qed.

Lemma iterate_raises (v : json) (e : exn) :
  iterate v = Raise e -> exists arg, e = TypeError arg.
Proof.
  destruct v; simpl; try discriminate; intros H; injection H as <-; eexists; reflexivity.
Qed.

Lemma fromisoformat_raises (v : json) (e : exn) :
  fromisoformat v = Raise e -> e = ValueError \/ exists arg, e = TypeError arg.
Proof.
  unfold fromisoformat. intros H.
  repeat match type of H with
         | match ?x with _ => _ end = _ => destruct x
         end;
    try discriminate H; injection H as <-;
    solve [left; reflexivity | right; eexists; reflexivity].
Qed.

(** Whatever the data, an exception that leaves [Order.deserialize] is a
    validation error or the [ValueError] of a [date_created] string that
    is not a date: a [KeyError] or [TypeError] never leaves it. *)
Theorem order_deserialize_raises_validation_or_value_error
  (self : Order.t) (data : json) (e : exn)
  (Hraise : Order.deserialize self data = Raise e) :
  (exists msg, e = DataValidationError msg) \/ e = ValueError.
Proof.
  unfold Order.deserialize in Hraise.
  destruct (Order.deserialize_body self data) as [o | e0] eqn:Ebody; [discriminate |].
  assert (Hbody : match e0 with
                  | KeyError _ | TypeError _ | ValueError | DataValidationError _ => True
                  | _ => False
                  end).
  { clear Hraise. unfold Order.deserialize_body in Ebody.
    destruct data as [| b | z | q | s | l | kv];
      try (simpl in Ebody; injection Ebody as <-; exact I).
    unfold getitem, keys, dict_get in Ebody.
    destruct (assoc "name" kv); [| injection Ebody as <-; exact I].
    destruct (assoc "address" kv); [| injection Ebody as <-; exact I].
    assert (Hrest : forall self' r,
              (let? item_list :=
                 (if contains "items" (map fst kv)
                  then Ok match assoc "items" kv with Some v => v | None => JNull end
                  else Ok (JList [])) in
               let? l := iterate item_list in Order.deserialize_items self' l) = Raise r ->
              match r with
              | KeyError _ | TypeError _ | ValueError | DataValidationError _ => True
              | _ => False
              end).
    { intros self' r Hr. destruct (contains "items" (map fst kv)).
      - destruct (iterate _) as [l |] eqn:Eit.
        + apply deserialize_items_raises in Hr.
          destruct Hr as [[msg ->] | [arg ->]]; exact I.
        + injection Hr as <-. apply iterate_raises in Eit. destruct Eit as [arg ->]. exact I.
      - apply deserialize_items_raises in Hr.
        destruct Hr as [[msg ->] | [arg ->]]; exact I. }
    destruct (contains "date_created" (map fst kv)).
    - destruct (assoc "date_created" kv) as [vd |]; [| injection Ebody as <-; exact I].
      destruct (fromisoformat vd) as [d |] eqn:Ed.
      + now apply Hrest in Ebody.
      + injection Ebody as <-. apply fromisoformat_raises in Ed.
        destruct Ed as [-> | [arg ->]]; exact I.
    - now apply Hrest in Ebody. }
  destruct e0; try contradiction; injection Hraise as <-;
    solve [left; eexists; reflexivity | right; reflexivity].
Qed.

Lemma order_deserialize_raises_validation_or_value_error_witness :
  (exists msg, DataValidationError
                 "Invalid order: body of request contained bad or no data - 'int' object is not iterable"
               = DataValidationError msg)
  \/ DataValidationError
       "Invalid order: body of request contained bad or no data - 'int' object is not iterable"
     = ValueError.
Proof.
  apply (order_deserialize_raises_validation_or_value_error Order.new
           (JDict [ ("name", JStr "A"); ("address", JStr "X"); ("items", JInt 3) ])).
  reflexivity.
Defined.

(** With name and address given and neither date_created nor items,
    [Order.deserialize] assigns the two and leaves the id, the date and
    the items of the instance as they were. *)
Theorem order_deserialize_optional_keys
  (self : Order.t) (kv : list (string * json)) (given_name given_address : json)
  (Hname : assoc "name" kv = Some given_name)
  (Haddress : assoc "address" kv = Some given_address)
  (Hdate : assoc "date_created" kv = None)
  (Hitems : assoc "items" kv = None) :
  Order.deserialize self (JDict kv)
    = Ok (Order.mk (Order.id self) given_name given_address
                   (Order.date_created self) (Order.items self)).
Proof.
  unfold Order.deserialize, Order.deserialize_body, getitem, keys.
  rewrite Hname, Haddress, !contains_assoc, Hdate, Hitems. reflexivity.
Qed.

Lemma order_deserialize_optional_keys_witness :
  Order.deserialize (load_order sample_db order5)
    (JDict [ ("name", JStr "B"); ("address", JNull) ])
  = Ok (Order.mk (Some 5) (JStr "B") JNull (Some (mkDate 2023 3 7)) [item1]).
Proof.
  apply (order_deserialize_optional_keys (load_order sample_db order5)
           [ ("name", JStr "B"); ("address", JNull) ] (JStr "B") JNull); reflexivity.
Defined.

Lemma fromisoformat_length (s : string) (r : result date) :
  fromisoformat (JStr s) = r ->
  (exists d, r = Ok d /\ String.length s = 10%nat) \/ r = Raise ValueError.
Proof.
  intros H. unfold fromisoformat in H.
  repeat match type of H with
         | match ?x with _ => _ end = _ => destruct x
         end;
    subst r; solve [right; reflexivity | left; eexists; split; reflexivity].
Qed.

Lemma fromisoformat_other_length (s : string) :
  String.length s <> 10%nat -> fromisoformat (JStr s) = Raise ValueError.
Proof.
  intros Hlen. destruct (fromisoformat_length s _ eq_refl) as [(d & _ & H) | H].
  - now contradiction Hlen.
  - exact H.
Qed.

(** A date_created string whose length is none of 7, 8 and 10, the
    lengths of the ISO formats [date.fromisoformat] reads, makes
    [Order.deserialize] raise the [ValueError] of the parser: it is not
    turned into a validation error. *)
Theorem order_deserialize_bad_date_escapes
  (self : Order.t) (kv : list (string * json)) (given_name given_address : json)
  (given_date : string)
  (Hname : assoc "name" kv = Some given_name)
  (Haddress : assoc "address" kv = Some given_address)
  (Hdate : assoc "date_created" kv = Some (JStr given_date))
  (Hlength : String.length given_date <> 7%nat
             /\ String.length given_date <> 8%nat
             /\ String.length given_date <> 10%nat) :
  Order.deserialize self (JDict kv) = Raise ValueError.
Proof.
  unfold Order.deserialize, Order.deserialize_body, getitem, keys.
  rewrite Hname, Haddress, !contains_assoc, Hdate.
  rewrite (fromisoformat_other_length given_date (proj2 (proj2 Hlength))). reflexivity.
Qed.

Lemma order_deserialize_bad_date_escapes_witness :
  Order.deserialize Order.new
    (JDict [ ("name", JStr "A"); ("address", JStr "X"); ("date_created", JStr "yesterday") ])
  = Raise ValueError.
Proof.
  apply (order_deserialize_bad_date_escapes Order.new
           [ ("name", JStr "A"); ("address", JStr "X"); ("date_created", JStr "yesterday") ]
           (JStr "A") (JStr "X") "yesterday"); try reflexivity.
  simpl. repeat split; discriminate.
Defined.

Lemma deserialize_items_each (l : list json) (self o : Order.t) :
  Order.deserialize_items self l = Ok o ->
  exists new, Order.items o = (Order.items self ++ new)%list
              /\ Forall2 (fun j i => Item.deserialize Item.new j = Ok i) l new.
Proof.
  revert self. induction l as [| j l IH]; intros self; simpl.
  - intros H. injection H as <-. exists []. split; [now rewrite app_nil_r | constructor].
  - destruct (Item.deserialize Item.new j) as [item | e] eqn:E; [| discriminate].
    intros H. apply IH in H. simpl in H. destruct H as (new & Hitems & Hall).
    exists (item :: new). split; [now rewrite Hitems, <- app_assoc |].
    now constructor.
Qed.

Lemma order_deserialize_new_items
  (self o : Order.t) (kv : list (string * json)) (l : list json) :
  assoc "items" kv = Some (JList l) ->
  Order.deserialize self (JDict kv) = Ok o ->
  exists new, Order.items o = (Order.items self ++ new)%list
              /\ Forall2 (fun j i => Item.deserialize Item.new j = Ok i) l new.
Proof.
  intros Hitems Hok.
  apply order_deserialize_body_ok in Hok.
  unfold Order.deserialize_body, getitem, keys, dict_get in Hok.
  rewrite !contains_assoc, Hitems in Hok.
  destruct (assoc "name" kv); [| discriminate Hok].
  destruct (assoc "address" kv); [| discriminate Hok].
  destruct (assoc "date_created" kv) as [vd |].
  - destruct (fromisoformat vd); [| discriminate Hok].
    simpl in Hok. now apply deserialize_items_each in Hok.
  - simpl in Hok. now apply deserialize_items_each in Hok.
Qed.

(** When [Order.deserialize] succeeds on data whose items are a list, the
    items of the order are those it had, followed by one new item for each
    element of the list, in the order of the list, each deserialized from
    its element. *)
Theorem order_deserialize_appends_each_payload_item
  (self o : Order.t) (kv : list (string * json)) (l : list json)
  (Hitems : assoc "items" kv = Some (JList l))
  (Hok : Order.deserialize self (JDict kv) = Ok o) :
  exists new, Order.items o = (Order.items self ++ new)%list
              /\ Forall2 (fun j i => Item.deserialize Item.new j = Ok i) l new.
Proof. exact (order_deserialize_new_items self o kv l Hitems Hok). Qed.

Lemma order_deserialize_appends_each_payload_item_witness :
  exists new,
    Order.items (Order.mk (Some 5) (JStr "B") (JStr "X") (Some (mkDate 2023 3 7))
                          [item1; item9])
    = (Order.items (load_order sample_db order5) ++ new)%list
    /\ Forall2 (fun j i => Item.deserialize Item.new j = Ok i) [Item.serialize item9] new.
Proof.
  apply (order_deserialize_appends_each_payload_item (load_order sample_db order5) _
           [ ("name", JStr "B"); ("address", JStr "X");
             ("items", JList [Item.serialize item9]) ]
           [Item.serialize item9]); reflexivity.
Defined.

(** * Further properties of the handlers *)

(** ** An order id that names no order *)

(** With no order of that id stored, the id being one the store can hold
    as a key (an integer of 64 bits), every view whose URL names an order
    answers 404 (the writing ones being sent the JSON content type), and
    leaves both tables as they were. *)
Theorem unknown_order_is_404_in_every_view
  (w : World) (req : request) (order_id item_id : Z) (h : M response)
  (Hct : header "Content-Type" (headers req) = Some "application/json")
  (Hrange : in_key_range order_id = true)
  (Hmissing : find_order_row order_id (db w) = None)
  (Hview : In h (order_views req order_id item_id)) :
  http_status (fst (h w)) = Some status.HTTP_404_NOT_FOUND
  /\ db (snd (h w)) = db w.
Proof.
  unfold order_views in Hview. simpl in Hview.
  repeat (destruct Hview as [<- | Hview]);
    try contradiction;
    unfold get_orders, update_orders, delete_orders, list_item, list_all_items,
      delete_items, create_items, update_item, bind;
    rewrite ?(check_content_type_accepts req w Hct), (order_find_missing _ _ Hmissing),
      Hrange;
    split; reflexivity.
Qed.

Lemma unknown_order_is_404_in_every_view_witness :
  http_status (fst (create_items 6 (json_request (Item.serialize item9)) (world_of sample_db)))
    = Some status.HTTP_404_NOT_FOUND
  /\ db (snd (create_items 6 (json_request (Item.serialize item9)) (world_of sample_db)))
     = db (world_of sample_db).
Proof.
  apply (unknown_order_is_404_in_every_view (world_of sample_db)
           (json_request (Item.serialize item9)) 6 9).
  - reflexivity.
  - reflexivity.
  - reflexivity.
  - simpl. tauto.
Defined.

(** ** What a view may change *)

Ltac unfold_views :=
  unfold list_orders, get_orders, create_orders, update_orders, delete_orders,
    list_item, list_all_items, delete_items, create_items, update_item,
    order_retrieve_based_on_date,
    Order_all, Order_find, Item_find, Item_delete, Item_create, Item_update,
    Query_bulk_delete, Order_delete, Order_create, Order_update,
    commit, abort, bind, ret, raise, lift, call, get_db, put_db.

Ltac break_match :=
  first
    [ match goal with
      | |- context [match ?x with _ => _ end] =>
          lazymatch x with
          | context [match _ with _ => _ end] => fail
          | _ => destruct x eqn:?
          end
      end
    | match goal with
      | |- context [match ?x with _ => _ end] => destruct x eqn:?
      end ].

Lemma get_views_read_only
  (w : World) (order_id item_id : Z) (date_iso : string) (h : M response) :
  In h (get_views order_id item_id date_iso) -> db (snd (h w)) = db w.
Proof.
  intros Hview. unfold get_views in Hview. simpl in Hview.
  repeat (destruct Hview as [<- | Hview]); try contradiction;
    unfold_views; cbn -[isoformat fromisoformat in_key_range];
    repeat (break_match; cbn -[isoformat fromisoformat in_key_range]); reflexivity.
Qed.

(** A view registered for GET leaves both tables as they were, whatever
    it answers. *)
Theorem get_views_change_no_table
  (w : World) (order_id item_id : Z) (date_iso : string) (h : M response)
  (Hview : In h (get_views order_id item_id date_iso)) :
  db (snd (h w)) = db w.
Proof. exact (get_views_read_only w order_id item_id date_iso h Hview). Qed.

Lemma get_views_change_no_table_witness :
  db (snd (order_retrieve_based_on_date "2023-03-07" (world_of sample_db)))
  = db (world_of sample_db).
Proof.
  apply (get_views_change_no_table (world_of sample_db) 5 1 "2023-03-07").
  simpl. tauto.
Defined.

Lemma update_orders_failure_keeps_tables
  (w : World) (order_id : Z) (req : request) (e : exn) :
  fst (update_orders order_id req w) = Raise e ->
  db (snd (update_orders order_id req w)) = db w.
Proof.
  unfold update_orders, bind.
  destruct (check_content_type_cases req w) as [-> | [e0 ->]]; [| reflexivity].
  destruct (find_order_row order_id (db w)) as [before |] eqn:Ebefore.
  2: { rewrite (order_find_missing _ _ Ebefore).
       destruct (in_key_range order_id); reflexivity. }
  rewrite (order_find_found _ _ _ Ebefore). unfold lift.
  destruct (Order.deserialize (load_order (db w) before) (get_json req)) as [o |];
    [| reflexivity].
  unfold Order_update. cbn [Order.set_id Order.id].
  unfold commit, bind, call, get_db, put_db, lift, ret, raise. cbn [db calls import_date].
  destruct (update_order order_id _ (db w)) as [d' |] eqn:Eupd; [| reflexivity].
  destruct (update_order_stored _ _ _ _ _ Ebefore Eupd) as (day & rows & _ & Hrow & _).
  cbn [db]. rewrite Hrow. rewrite serialize_loaded. cbn [fst]. discriminate.
Qed.

(** Each of the eleven views modelled (those of the URL map but [index]
    and [list_all_items_prices]), whatever the request: when it ends with
    an [abort], a validation error, a [TypeError], an [IntegrityError] or
    an [OverflowError], both tables are as they were before the
    request. *)
Theorem failed_request_changes_no_table
  (w : World) (req : request) (order_id item_id : Z) (date_iso : string)
  (h : M response) (e : exn)
  (Hview : In h (views req order_id item_id date_iso))
  (Hkind : match e with
           | HTTPException _ _ | DataValidationError _ | TypeError _
           | IntegrityError | OverflowError => True
           | _ => False
           end)
  (Hfail : fst (h w) = Raise e) :
  db (snd (h w)) = db w.
Proof.
  clear Hkind. unfold views in Hview. simpl in Hview.
  destruct Hview as [<- | Hview].
  { apply (get_views_read_only w order_id item_id date_iso). simpl. tauto. }
  destruct Hview as [<- | Hview].
  { apply (get_views_read_only w order_id item_id date_iso). simpl. tauto. }
  destruct Hview as [<- | Hview].
  { revert Hfail. unfold create_orders, bind.
    destruct (check_content_type_cases req w) as [-> | [e0 ->]]; [| reflexivity].
    unfold_views. cbn -[isoformat fromisoformat Order.deserialize insert_order].
    repeat (break_match; cbn -[isoformat fromisoformat Order.deserialize insert_order]);
      try reflexivity; discriminate. }
  destruct Hview as [<- | Hview].
  { now apply update_orders_failure_keeps_tables with (e := e). }
  destruct Hview as [<- | Hview].
  { revert Hfail. unfold_views. cbn -[in_key_range].
    repeat (break_match; cbn -[in_key_range]); try reflexivity; discriminate. }
  destruct Hview as [<- | Hview].
  { apply (get_views_read_only w order_id item_id date_iso). simpl. tauto. }
  destruct Hview as [<- | Hview].
  { apply (get_views_read_only w order_id item_id date_iso). simpl. tauto. }
  destruct Hview as [<- | Hview].
  { revert Hfail. unfold_views. cbn -[in_key_range].
    repeat (break_match; cbn -[in_key_range]); try reflexivity; discriminate. }
  destruct Hview as [<- | Hview].
  { revert Hfail. unfold create_items, bind.
    destruct (check_content_type_cases req w) as [-> | [e0 ->]]; [| reflexivity].
    unfold_views. cbn -[Item.deserialize insert_item in_key_range].
    repeat (break_match; cbn -[Item.deserialize insert_item in_key_range]);
      try reflexivity; discriminate. }
  destruct Hview as [<- | Hview].
  { revert Hfail. unfold update_item, bind.
    destruct (check_content_type_cases req w) as [-> | [e0 ->]]; [| reflexivity].
    unfold_views. cbn -[Item.deserialize update_item_row in_key_range].
    repeat (break_match; cbn -[Item.deserialize update_item_row in_key_range]);
      try reflexivity; discriminate. }
  destruct Hview as [<- | Hview]; [| contradiction].
  apply (get_views_read_only w order_id item_id date_iso). simpl. tauto.
Qed.

Lemma failed_request_changes_no_table_witness :
  db (snd (create_orders (json_request (JDict [ ("name", JStr "A") ])) (world_of sample_db)))
  = db (world_of sample_db).
Proof.
  apply (failed_request_changes_no_table (world_of sample_db)
           (json_request (JDict [ ("name", JStr "A") ])) 5 1 "2023-03-07" _
           (DataValidationError "Invalid order: missing address")).
  - simpl. tauto.
  - exact I.
  - reflexivity.
Defined.
(** ** DELETE /orders/<id> on a stored order *)

(** With the order stored, DELETE /orders/<id> answers 204; afterwards no
    order has that id and no item refers to it, every other order and
    item is still there, and GET /orders/<id> answers 404. *)
Theorem delete_orders_removes_order_and_its_items
  (w : World) (order_id : Z) (O : OrderRow)
  (HO : find_order_row order_id (db w) = Some O) :
  let w' := snd (delete_orders order_id w) in
  fst (delete_orders order_id w)
    = Ok (mkResponse (Text EmptyString) status.HTTP_204_NO_CONTENT [])
  /\ find_order_row order_id (db w') = None
  /\ (forall r, In r (order_table (db w'))
                <-> In r (order_table (db w)) /\ row_id r <> order_id)
  /\ (forall i, In i (item_table (db w'))
                <-> In i (item_table (db w)) /\ belongs_to order_id i = false)
  /\ http_status (fst (get_orders order_id w')) = Some status.HTTP_404_NOT_FOUND.
Proof.
  intros w'. subst w'.
  destruct (find_order_row_some _ _ _ HO) as (Hkey & _ & Hrange).
  unfold delete_orders, bind. rewrite (order_find_found _ _ _ HO).
  unfold Query_bulk_delete, Order_delete, Item_find_by_order_id, commit, bind, call,
    get_db, put_db, lift, ret. cbn [load_order Order.id db calls import_date fst snd].
  rewrite Hkey.
  assert (Hgone : find_order_row order_id
                    (delete_order_row order_id
                       (delete_item_rows (belongs_to order_id) (db w))) = None).
  { unfold find_order_row, delete_order_row. rewrite Hrange. cbn [order_table].
    destruct (find _ _) as [r |] eqn:E; [| reflexivity].
    apply find_some in E. destruct E as [Hin Hb].
    apply filter_In in Hin. destruct Hin as [_ Hn]. rewrite Hb in Hn. discriminate. }
  split; [reflexivity |]. split; [exact Hgone |]. split; [| split].
  - intros r. unfold delete_order_row, delete_item_rows. cbn [order_table].
    rewrite filter_In, negb_true_iff, Z.eqb_neq. reflexivity.
  - intros i. unfold delete_order_row, delete_item_rows. cbn [item_table].
    rewrite filter_In, negb_true_iff. reflexivity.
  - unfold get_orders, bind. erewrite order_find_missing by exact Hgone.
    rewrite Hrange. reflexivity.
Qed.

Lemma delete_orders_removes_order_and_its_items_witness :
  let w := world_of (mkDatabase [order5] [item1; item9]) in
  let w' := snd (delete_orders 5 w) in
  fst (delete_orders 5 w) = Ok (mkResponse (Text EmptyString) status.HTTP_204_NO_CONTENT [])
  /\ find_order_row 5 (db w') = None
  /\ (forall r, In r (order_table (db w')) <-> In r (order_table (db w)) /\ row_id r <> 5)
  /\ (forall i, In i (item_table (db w'))
                <-> In i (item_table (db w)) /\ belongs_to 5 i = false)
  /\ http_status (fst (get_orders 5 w')) = Some status.HTTP_404_NOT_FOUND.
Proof.
  intros w.
  apply (delete_orders_removes_order_and_its_items w 5 order5). reflexivity.
Defined.

(** ** POST /orders *)

Lemma next_order_key_is_fresh (d : Database) :
  find_order_row (next_key (map row_id (order_table d))) d = None.
Proof.
  unfold find_order_row. destruct (in_key_range _); [| reflexivity].
  destruct (find _ _) as [r |] eqn:E; [| reflexivity].
  apply find_some in E. destruct E as [Hin Hb]. apply Z.eqb_eq in Hb.
  apply (in_map row_id) in Hin. apply le_fold_max in Hin.
  unfold next_key in Hb. lia.
Qed.

Lemma find_last (A : Type) (f : A -> bool) (l : list A) (x : A) :
  find f l = None -> f x = true -> find f (l ++ [x]) = Some x.
Proof.
  induction l as [| y l IH]; simpl.
  - intros _ ->. reflexivity.
  - destruct (f y); [discriminate |]. exact IH.
Qed.

Lemma Forall2_chain (A B C : Type) (R : A -> B -> Prop) (S : B -> C -> Prop)
  (la : list A) (lb : list B) (lc : list C) :
  Forall2 R la lb -> Forall2 S lb lc ->
  Forall2 (fun a c => exists b, R a b /\ S b c) la lc.
Proof.
  intros H. revert lc. induction H as [| a b la lb Hab _ IH]; intros lc Hc.
  - inversion Hc. constructor.
  - inversion Hc as [| b' c lb' lc' Hbc Hrest]; subst.
    constructor; [now exists b | now apply IH].
Qed.

(** What a successful [Order.create] stored. *)
Lemma insert_order_ok (today : date) (self : Order.t) (d d' : Database) (k : Z) :
  insert_order today self d = Ok (k, d') ->
  let row := mkOrderRow k (Order.name self)
               (if is_null (Order.address self) then JStr "Invalid Address"
                else Order.address self)
               (match Order.date_created self with Some x => x | None => today end) in
  k = next_key (map row_id (order_table d))
  /\ order_table d' = (order_table d ++ [row])%list
  /\ (forall r, find_order_row k d' = Some r -> r = row)
  /\ exists rows,
       (forall x, In x (item_table d') <-> In x (item_table d) \/ In x rows)
       /\ Forall2 (fun p r =>
                     Item.product_id r = Item.product_id p
                     /\ float_column (Item.price p) = Ok (Item.price r)
                     /\ Item.status r = Item.status p
                     /\ Item.order_id r = JInt k) (Order.items self) rows.
Proof.
  unfold insert_order.
  destruct (insert_items _ _ _) as [d1 |] eqn:E; [| discriminate].
  intros H. cbv zeta. injection H as <- <-.
  apply insert_items_stored in E. cbn [order_table item_table] in E.
  destruct E as (Horders & rows & Hitems & Hall).
  split; [reflexivity |]. split; [exact Horders |]. split.
  - intros r Hr. pose proof (next_order_key_is_fresh d) as Hfresh.
    unfold find_order_row in *. destruct (in_key_range _); [| discriminate].
    rewrite Horders in Hr. rewrite (find_last _ _ _ _ Hfresh) in Hr.
    + now injection Hr.
    + apply Z.eqb_refl.
  - now exists rows.
Qed.

(** What a successful POST /orders did, read off the handler. *)
Lemma create_orders_ok (w w' : World) (req : request) (resp : response) :
  create_orders req w = (Ok resp, w') ->
  exists (o : Order.t) (k : Z) (row : OrderRow) (j : json),
    Order.deserialize Order.new (get_json req) = Ok o
    /\ insert_order (import_date w) (Order.set_id None o) (db w) = Ok (k, db w')
    /\ find_order_row k (db w') = Some row
    /\ Order.serialize (load_order (db w') row) = Ok j
    /\ resp = mkResponse (Json j) status.HTTP_201_CREATED
                [("Location", url_root req ++ "orders/" ++ str_of_int k)].
Proof.
  unfold create_orders, bind.
  destruct (check_content_type_cases req w) as [-> | [e0 ->]]; [| discriminate].
  unfold lift.
  destruct (Order.deserialize Order.new (get_json req)) as [o |] eqn:Edes; [| discriminate].
  unfold Order_create, bind, call. cbn [db calls import_date].
  destruct (insert_order (import_date w) (Order.set_id None o) (db w))
    as [[k d'] |] eqn:Eins; [| discriminate].
  destruct (find_order_row k d') as [row |] eqn:Erow; [| discriminate].
  rewrite serialize_loaded. unfold ret.
  intros H. injection H as <- <-. cbn [db].
  destruct (find_order_row_some _ _ _ Erow) as (Hk & _ & _).
  eexists o, k, row, _. rewrite serialize_loaded.
  cbn [load_order Order.id]. rewrite Hk.
  repeat split; try assumption; reflexivity.
Qed.

(** After a POST /orders that answered with a response, the order is
    stored under a key no order had before, the Location header names
    that key, and GET /orders/<key> answers 200 with the very body the
    POST returned. *)
Theorem created_order_is_retrievable
  (w w' : World) (req : request) (resp : response)
  (Hrun : create_orders req w = (Ok resp, w')) :
  exists k,
    status_code resp = status.HTTP_201_CREATED
    /\ response_headers resp = [("Location", url_root req ++ "orders/" ++ str_of_int k)]
    /\ find_order_row k (db w) = None
    /\ fst (get_orders k w') = Ok (mkResponse (body resp) status.HTTP_200_OK []).
Proof.
  apply create_orders_ok in Hrun.
  destruct Hrun as (o & k & row & j & _ & Hins & Hrow & Hser & ->).
  apply insert_order_ok in Hins. cbv zeta in Hins. destruct Hins as (Hk & _).
  exists k. cbn [status_code response_headers body]. repeat split.
  - rewrite Hk. apply next_order_key_is_fresh.
  - unfold get_orders, bind. rewrite (order_find_found _ _ _ Hrow).
    unfold lift. rewrite Hser. reflexivity.
Qed.

Lemma created_order_is_retrievable_witness :
  let w := world_of sample_db in
  let w' := snd (create_orders (json_request order_body) w) in
  exists k,
    status_code created_response = status.HTTP_201_CREATED
    /\ response_headers created_response
       = [("Location", url_root (json_request order_body) ++ "orders/" ++ str_of_int k)]
    /\ find_order_row k (db w) = None
    /\ fst (get_orders k w') = Ok (mkResponse (body created_response) status.HTTP_200_OK []).
Proof.
  intros w w'.
  apply (created_order_is_retrievable w w' (json_request order_body) created_response).
  reflexivity.
Defined.

(** The body a successful POST /orders returns carries the name of the
    payload when that is a string or null, its address when that is a
    string, and as date_created the date the payload gives or, when the
    payload has no such key, the date on which the module was imported. *)
Theorem created_order_echoes_payload
  (w w' : World) (req : request) (resp : response) (kv : list (string * json))
  (Hbody : get_json req = JDict kv)
  (Hrun : create_orders req w = (Ok resp, w')) :
  exists j,
    body resp = Json j
    /\ (forall given, assoc "name" kv = Some given -> is_text given = true ->
                      getitem j "name" = Ok given)
    /\ (forall given, assoc "address" kv = Some given -> is_str given = true ->
                      getitem j "address" = Ok given)
    /\ match assoc "date_created" kv with
       | Some v => exists d, fromisoformat v = Ok d
                             /\ getitem j "date_created" = Ok (JStr (isoformat d))
       | None => getitem j "date_created" = Ok (JStr (isoformat (import_date w)))
       end.
Proof.
  apply create_orders_ok in Hrun.
  destruct Hrun as (o & k & row & j & Hdes & Hins & Hrow & Hser & ->).
  apply insert_order_ok in Hins. cbv zeta in Hins.
  destruct Hins as (_ & _ & Hrow' & _).
  apply Hrow' in Hrow. subst row.
  rewrite serialize_loaded in Hser. injection Hser as <-.
  rewrite Hbody in Hdes. apply order_deserialize_ok in Hdes.
  destruct Hdes as (Hname & Haddr & Hdate & _).
  cbn [Order.set_id Order.name Order.address Order.date_created row_id row_name
       row_address row_date_created].
  eexists. split; [reflexivity |]. unfold getitem in Hname, Haddr, Hdate.
  split; [| split].
  - intros given Hgiven _. rewrite Hgiven in Hname. injection Hname as <-. reflexivity.
  - intros given Hgiven Hstr. rewrite Hgiven in Haddr. injection Haddr as <-.
    cbn. destruct given; try discriminate Hstr. reflexivity.
  - destruct (assoc "date_created" kv) as [v |].
    + destruct Hdate as (d & Hparse & Hset). exists d. split; [assumption |].
      cbn. now rewrite Hset.
    + cbn in Hdate. cbn. now rewrite Hdate.
Qed.

Lemma created_order_echoes_payload_witness :
  let w := world_of sample_db in
  let w' := snd (create_orders (json_request order_body) w) in
  exists j,
    body created_response = Json j
    /\ (forall given, assoc "name"
                        [ ("name", JStr "B"); ("address", JStr "2 Side St");
                          ("items", JList [Item.serialize (Item.set_id JNull item9)]) ]
                      = Some given ->
                      is_text given = true -> getitem j "name" = Ok given)
    /\ (forall given, assoc "address"
                        [ ("name", JStr "B"); ("address", JStr "2 Side St");
                          ("items", JList [Item.serialize (Item.set_id JNull item9)]) ]
                      = Some given ->
                      is_str given = true -> getitem j "address" = Ok given)
    /\ match assoc "date_created"
               [ ("name", JStr "B"); ("address", JStr "2 Side St");
                 ("items", JList [Item.serialize (Item.set_id JNull item9)]) ] with
       | Some v => exists d, fromisoformat v = Ok d
                             /\ getitem j "date_created" = Ok (JStr (isoformat d))
       | None => getitem j "date_created" = Ok (JStr (isoformat (import_date w)))
       end.
Proof.
  intros w w'.
  apply (created_order_echoes_payload w w' (json_request order_body) created_response);
    reflexivity.
Defined.

(** A successful POST /orders whose payload has a list of items keeps
    every stored item and stores one more item per element of the list;
    the new item has the key of the new order as order_id, whatever the
    element gave as order_id, and the product_id, the price and the
    status of the element where these have the type of their column (an
    integer of 64 bits, a float, a string). *)
Theorem create_orders_stores_nested_items
  (w w' : World) (req : request) (resp : response)
  (kv : list (string * json)) (l : list json)
  (Hbody : get_json req = JDict kv)
  (Hitems : assoc "items" kv = Some (JList l))
  (Hrun : create_orders req w = (Ok resp, w')) :
  exists k rows,
    response_headers resp = [("Location", url_root req ++ "orders/" ++ str_of_int k)]
    /\ (forall x, In x (item_table (db w')) <-> In x (item_table (db w)) \/ In x rows)
    /\ Forall2 (fun j row =>
                  exists p, Item.deserialize Item.new j = Ok p
                            /\ (is_int64 (Item.product_id p) = true ->
                                Item.product_id row = Item.product_id p)
                            /\ (is_float (Item.price p) = true ->
                                Item.price row = Item.price p)
                            /\ (is_str (Item.status p) = true ->
                                Item.status row = Item.status p)
                            /\ Item.order_id row = JInt k) l rows.
Proof.
  apply create_orders_ok in Hrun.
  destruct Hrun as (o & k & row & j & Hdes & Hins & _ & _ & ->).
  apply insert_order_ok in Hins. cbv zeta in Hins.
  destruct Hins as (_ & _ & _ & rows & Htable & Hrows).
  rewrite Hbody in Hdes.
  destruct (order_deserialize_new_items _ _ _ _ Hitems Hdes) as (new & Hnew & Heach).
  cbn [Order.items Order.new app] in Hnew. cbn [Order.set_id Order.items] in Hrows.
  rewrite Hnew in Hrows.
  exists k, rows. split; [reflexivity |]. split; [assumption |].
  pose proof (Forall2_chain _ _ _ _ _ _ _ _ Heach Hrows) as Hchain.
  eapply Forall2_impl; [| exact Hchain].
  intros a b (p & Hp & Hpid & Hpr & Hst & Hoid). exists p.
  repeat split; try assumption.
  - intros _. exact Hpid.
  - intros Hf. now apply float_column_float in Hpr.
  - intros _. exact Hst.
Qed.

Lemma create_orders_stores_nested_items_witness :
  let w := world_of sample_db in
  let w' := snd (create_orders (json_request order_body) w) in
  exists k rows,
    response_headers created_response
    = [("Location", url_root (json_request order_body) ++ "orders/" ++ str_of_int k)]
    /\ (forall x, In x (item_table (db w')) <-> In x (item_table (db w)) \/ In x rows)
    /\ Forall2 (fun j row =>
                  exists p, Item.deserialize Item.new j = Ok p
                            /\ (is_int64 (Item.product_id p) = true ->
                                Item.product_id row = Item.product_id p)
                            /\ (is_float (Item.price p) = true ->
                                Item.price row = Item.price p)
                            /\ (is_str (Item.status p) = true ->
                                Item.status row = Item.status p)
                            /\ Item.order_id row = JInt k)
               [Item.serialize (Item.set_id JNull item9)] rows.
Proof.
  intros w w'.
  apply (create_orders_stores_nested_items w w' (json_request order_body) created_response
           [ ("name", JStr "B"); ("address", JStr "2 Side St");
             ("items", JList [Item.serialize (Item.set_id JNull item9)]) ]);
    reflexivity.
Defined.
(** ** PUT /orders/<id> with items *)

Lemma skipn_app_length (A : Type) (l new : list A) :
  skipn (List.length l) (l ++ new) = new.
Proof. induction l as [| x l IH]; simpl; [reflexivity | exact IH]. Qed.

(** A successful PUT /orders/<id> whose payload has a list of items keeps
    every stored item and stores one more item per element of the list;
    the new item has the id of the URL as order_id, and the product_id,
    the price and the status of the element where these have the type of
    their column (an integer of 64 bits, a float, a string). *)
Theorem update_orders_stores_nested_items
  (w w' : World) (order_id : Z) (req : request) (resp : response)
  (kv : list (string * json)) (l : list json)
  (Hbody : get_json req = JDict kv)
  (Hitems : assoc "items" kv = Some (JList l))
  (Hrun : update_orders order_id req w = (Ok resp, w')) :
  exists rows,
    (forall x, In x (item_table (db w')) <-> In x (item_table (db w)) \/ In x rows)
    /\ Forall2 (fun j row =>
                  exists p, Item.deserialize Item.new j = Ok p
                            /\ (is_int64 (Item.product_id p) = true ->
                                Item.product_id row = Item.product_id p)
                            /\ (is_float (Item.price p) = true ->
                                Item.price row = Item.price p)
                            /\ (is_str (Item.status p) = true ->
                                Item.status row = Item.status p)
                            /\ Item.order_id row = JInt order_id) l rows.
Proof.
  apply update_orders_ok in Hrun.
  destruct Hrun as (before & o & _ & _ & Hbefore & Hdes & Hupd & _).
  rewrite Hbody in Hdes.
  destruct (order_deserialize_new_items _ _ _ _ Hitems Hdes) as (new & Hnew & Heach).
  destruct (find_order_row_some _ _ _ Hbefore) as (Hkey & _ & _).
  destruct (update_order_stored _ _ _ _ _ Hbefore Hupd) as (day & rows & _ & _ & Hin & Hrows).
  cbn [Order.set_id Order.items] in Hrows. rewrite Hnew in Hrows.
  cbn [load_order Order.items] in Hrows. rewrite Hkey, skipn_app_length in Hrows.
  exists rows. split; [assumption |].
  pose proof (Forall2_chain _ _ _ _ _ _ _ _ Heach Hrows) as Hchain.
  eapply Forall2_impl; [| exact Hchain].
  intros a b (p & Hp & Hpid & Hpr & Hst & Hoid). exists p.
  repeat split; try assumption.
  - intros _. exact Hpid.
  - intros Hf. now apply float_column_float in Hpr.
  - intros _. exact Hst.
Qed.

Lemma update_orders_stores_nested_items_witness :
  let w := world_of sample_db in
  let w' := snd (update_orders 5 (json_request order_body) w) in
  exists rows,
    (forall x, In x (item_table (db w')) <-> In x (item_table (db w)) \/ In x rows)
    /\ Forall2 (fun j row =>
                  exists p, Item.deserialize Item.new j = Ok p
                            /\ (is_int64 (Item.product_id p) = true ->
                                Item.product_id row = Item.product_id p)
                            /\ (is_float (Item.price p) = true ->
                                Item.price row = Item.price p)
                            /\ (is_str (Item.status p) = true ->
                                Item.status row = Item.status p)
                            /\ Item.order_id row = JInt 5)
               [Item.serialize (Item.set_id JNull item9)] rows.
Proof.
  intros w w'.
  apply (update_orders_stores_nested_items w w' 5 (json_request order_body)
           (mkResponse
              (Json (JDict
                 [ ("id", JInt 5); ("name", JStr "B"); ("address", JStr "2 Side St");
                   ("date_created", JStr "2023-03-07");
                   ("items", JList [ Item.serialize item1;
                                     Item.serialize
                                       (Item.mk (JInt 2) (JInt 3) (JFloat (5 # 2))
                                                (JInt 1) (JInt 5) (JStr "shipped")) ]) ]))
              status.HTTP_200_OK [])
           [ ("name", JStr "B"); ("address", JStr "2 Side St");
             ("items", JList [Item.serialize (Item.set_id JNull item9)]) ]);
    reflexivity.
Defined.

(** ** The item routes on stored items *)

(** What the INSERT of an item without id stored. *)
Lemma insert_item_fresh (i row : Item.t) (d d' : Database) :
  Item.id i = JNull ->
  insert_item i d = Ok (row, d') ->
  Item.id row = JInt (next_key (item_keys (item_table d)))
  /\ Item.order_id row = Item.order_id i
  /\ d' = mkDatabase (order_table d) (item_table d ++ [row]).
Proof.
  intros Hid. unfold insert_item. rewrite Hid.
  destruct (integer_column (Item.product_id i)) as [pid |]; [| discriminate].
  destruct (float_column (Item.price i)) as [pr |]; [| discriminate].
  destruct (integer_column (if is_null (Item.quantity i) then JInt 1 else Item.quantity i))
    as [q |]; [| discriminate].
  destruct (integer_column (Item.order_id i)) as [oid |] eqn:Eoid; [| discriminate].
  destruct (_ || _ || _); [discriminate |].
  intros H. injection H as <- <-. apply integer_column_ok in Eoid. subst oid.
  rewrite insert_by_next_key. repeat split.
Qed.

(** What a successful POST /orders/<id>/items did, read off the handler. *)
Lemma create_items_ok (w w' : World) (order_id : Z) (req : request) (resp : response) :
  create_items order_id req w = (Ok resp, w') ->
  exists (O : OrderRow) (row : Item.t),
    find_order_row order_id (db w) = Some O
    /\ resp = mkResponse (Json (Item.serialize row)) status.HTTP_201_CREATED []
    /\ Item.id row = JInt (next_key (item_keys (item_table (db w))))
    /\ Item.order_id row = JInt order_id
    /\ db w' = mkDatabase (order_table (db w)) (item_table (db w) ++ [row]).
Proof.
  intros Hrun. unfold create_items, bind in Hrun.
  destruct (check_content_type_cases req w) as [E | [e0 E]]; rewrite E in Hrun;
    [| discriminate Hrun].
  destruct (find_order_row order_id (db w)) as [O |] eqn:EO.
  2: { rewrite (order_find_missing _ _ EO) in Hrun.
       destruct (in_key_range order_id); discriminate Hrun. }
  rewrite (order_find_found _ _ _ EO) in Hrun. unfold lift in Hrun.
  destruct (Item.deserialize Item.new (get_json req)) as [p |]; [| discriminate Hrun].
  unfold Item_create, bind, call, get_db, put_db, lift, ret in Hrun.
  cbn [db calls import_date] in Hrun.
  destruct (insert_item _ (db w)) as [[row d'] |] eqn:Eins; [| discriminate Hrun].
  apply insert_item_fresh in Eins; [| reflexivity].
  cbn [Item.set_id Item.set_order_id Item.order_id] in Eins.
  destruct Eins as (Hid & Hoid & ->).
  cbn [fst snd] in Hrun. injection Hrun as <- <-.
  exists O, row. cbn [db]. repeat split; assumption.
Qed.

Lemma next_key_not_found (rows : list Item.t) :
  find (has_pk (next_key (item_keys rows))) rows = None.
Proof.
  destruct (find _ rows) as [i |] eqn:Ef; [| reflexivity].
  apply find_some in Ef. destruct Ef as [Hin Hpk].
  pose proof (next_key_is_fresh rows) as Hnone.
  assert (Hex : existsb (has_pk (next_key (item_keys rows))) rows = true).
  { apply existsb_exists. now exists i. }
  rewrite Hex in Hnone. discriminate.
Qed.

(** After a POST /orders/<id>/items that answered with a response, GET
    /orders/<id>/items/<new id> answers 200 with the very body the POST
    returned; the new id was the id of no stored item, and every item
    stored before is still stored. *)
Theorem created_item_is_retrievable
  (w w' : World) (order_id : Z) (req : request) (resp : response)
  (Hrun : create_items order_id req w = (Ok resp, w')) :
  exists (k : Z) (row : Item.t),
    body resp = Json (Item.serialize row)
    /\ Item.id row = JInt k /\ Item.order_id row = JInt order_id
    /\ find (has_pk k) (item_table (db w)) = None
    /\ item_table (db w') = (item_table (db w) ++ [row])%list
    /\ order_table (db w') = order_table (db w)
    /\ fst (list_item order_id k w') = Ok (mkResponse (body resp) status.HTTP_200_OK []).
Proof.
  apply create_items_ok in Hrun.
  destruct Hrun as (O & row & HO & -> & Hid & Hoid & Hdb).
  exists (next_key (item_keys (item_table (db w)))), row.
  rewrite Hdb. cbn [body item_table order_table].
  repeat split; try assumption.
  - apply next_key_not_found.
  - unfold list_item, bind.
    assert (HO' : find_order_row order_id (db w') = Some O)
      by (rewrite Hdb; exact HO).
    rewrite (order_find_found _ _ _ HO').
    erewrite item_find_found; [reflexivity |].
    cbn [db]. rewrite Hdb. cbn [item_table].
    apply find_last; [apply next_key_not_found |].
    unfold has_pk. rewrite Hid. apply Z.eqb_refl.
Qed.

Lemma created_item_is_retrievable_witness :
  let w := world_of sample_db in
  let req := json_request (Item.serialize item9) in
  let row := Item.mk (JInt 2) (JInt 3) (JFloat (5 # 2)) (JInt 1) (JInt 5) (JStr "shipped") in
  let resp := mkResponse (Json (Item.serialize row)) status.HTTP_201_CREATED [] in
  let w' := snd (create_items 5 req w) in
  exists (k : Z) (row : Item.t),
    body resp = Json (Item.serialize row)
    /\ Item.id row = JInt k /\ Item.order_id row = JInt 5
    /\ find (has_pk k) (item_table (db w)) = None
    /\ item_table (db w') = (item_table (db w) ++ [row])%list
    /\ order_table (db w') = order_table (db w)
    /\ fst (list_item 5 k w') = Ok (mkResponse (body resp) status.HTTP_200_OK []).
Proof.
  intros w req row resp w'.
  apply (created_item_is_retrievable w w' 5 req resp). reflexivity.
Defined.

(** After a POST /orders/<id>/items that answered with a response, GET
    /orders/<id>/items answers 200 with the list it gave before the POST
    followed by the body of the POST. *)
Theorem created_item_is_listed_last
  (w w' : World) (order_id : Z) (req : request) (resp : response)
  (Hrun : create_items order_id req w = (Ok resp, w')) :
  exists (before : list json) (created : json),
    body resp = Json created
    /\ fst (list_all_items order_id w)
       = Ok (mkResponse (Json (JList before)) status.HTTP_200_OK [])
    /\ fst (list_all_items order_id w')
       = Ok (mkResponse (Json (JList (before ++ [created]))) status.HTTP_200_OK []).
Proof.
  apply create_items_ok in Hrun.
  destruct Hrun as (O & row & HO & -> & Hid & Hoid & Hdb).
  destruct (find_order_row_some _ _ _ HO) as (Hkey & _ & _).
  assert (HO' : find_order_row order_id (db w') = Some O)
    by (rewrite Hdb; exact HO).
  eexists _, (Item.serialize row). split; [reflexivity |].
  unfold list_all_items, bind.
  rewrite (order_find_found _ _ _ HO), (order_find_found _ _ _ HO'), Hdb.
  cbn [load_order Order.items item_table]. rewrite Hkey.
  split; [reflexivity |].
  unfold ret. cbn [fst]. rewrite filter_app, map_app. cbn [filter].
  unfold belongs_to at 2. rewrite Hoid, Z.eqb_refl. reflexivity.
Qed.

Lemma created_item_is_listed_last_witness :
  let w := world_of sample_db in
  let req := json_request (Item.serialize item9) in
  let row := Item.mk (JInt 2) (JInt 3) (JFloat (5 # 2)) (JInt 1) (JInt 5) (JStr "shipped") in
  let resp := mkResponse (Json (Item.serialize row)) status.HTTP_201_CREATED [] in
  let w' := snd (create_items 5 req w) in
  exists (before : list json) (created : json),
    body resp = Json created
    /\ fst (list_all_items 5 w)
       = Ok (mkResponse (Json (JList before)) status.HTTP_200_OK [])
    /\ fst (list_all_items 5 w')
       = Ok (mkResponse (Json (JList (before ++ [created]))) status.HTTP_200_OK []).
Proof.
  intros w req row resp w'.
  apply (created_item_is_listed_last w w' 5 req resp). reflexivity.
Defined.

(** DELETE /orders/<id>/items/<item_id> on a stored order, the item stored
    or not and its id one the store can hold as a key (an integer of 64
    bits): the orders are as before, the items after it are exactly the
    items before it whose id is not <item_id>, and GET on the same path
    then answers 404. *)
Theorem delete_items_removes_only_that_item
  (w : World) (order_id item_id : Z) (O : OrderRow)
  (HO : find_order_row order_id (db w) = Some O)
  (Hrange : in_key_range item_id = true) :
  let w' := snd (delete_items order_id item_id w) in
  order_table (db w') = order_table (db w)
  /\ (forall i, In i (item_table (db w'))
                <-> In i (item_table (db w)) /\ has_pk item_id i = false)
  /\ fst (list_item order_id item_id w')
     = Raise (HTTPException status.HTTP_404_NOT_FOUND
                (not_found_msg "Item" item_id "was not found.")).
Proof.
  intros w'. subst w'.
  unfold delete_items, bind. rewrite (order_find_found _ _ _ HO).
  destruct (find (has_pk item_id) (item_table (db w))) as [I |] eqn:EI.
  - destruct (find_has_pk _ _ _ EI) as [Hid _].
    erewrite item_find_found by exact EI.
    unfold Item_delete, commit, bind, call, get_db, put_db, lift, ret. rewrite Hid.
    cbn [fst snd db calls import_date delete_item_rows order_table item_table].
    split; [reflexivity |]. split.
    + intros i. rewrite filter_In, negb_true_iff. reflexivity.
    + unfold list_item, bind.
      erewrite order_find_found by exact HO.
      erewrite item_find_missing by (cbn [db item_table]; apply find_after_delete).
      rewrite Hrange. reflexivity.
  - erewrite item_find_missing by exact EI. rewrite Hrange.
    unfold ret. cbn [fst snd db]. split; [reflexivity |]. split.
    + intros i. split; [| tauto]. intros Hin. split; [assumption |].
      destruct (has_pk item_id i) eqn:E; [| reflexivity].
      now rewrite (find_none _ _ EI i Hin) in E.
    + unfold list_item, bind.
      erewrite order_find_found by exact HO.
      erewrite item_find_missing by exact EI.
      rewrite Hrange. reflexivity.
Qed.

Lemma delete_items_removes_only_that_item_witness :
  let w := world_of (mkDatabase [order5] [item1; item9]) in
  let w' := snd (delete_items 5 9 w) in
  order_table (db w') = order_table (db w)
  /\ (forall i, In i (item_table (db w')) <-> In i (item_table (db w)) /\ has_pk 9 i = false)
  /\ fst (list_item 5 9 w')
     = Raise (HTTPException status.HTTP_404_NOT_FOUND
                (not_found_msg "Item" 9 "was not found.")).
Proof.
  intros w.
  apply (delete_items_removes_only_that_item w 5 9 order5); reflexivity.
Defined.

Lemma find_replaced (A : Type) (f : A -> bool) (l : list A) (x y : A) :
  find f l = Some x -> f y = true ->
  find f (map (fun r => if f r then y else r) l) = Some y.
Proof.
  intros Hx Hy. induction l as [| r l IH]; simpl in *; [discriminate |].
  destruct (f r) eqn:E.
  - now rewrite Hy.
  - rewrite E. now apply IH.
Qed.

(** What the UPDATE of the row of an item stored. *)
Lemma update_item_row_stored (k : Z) (i row : Item.t) (d d' : Database) :
  update_item_row k i d = Ok (row, d') ->
  Item.id row = JInt k
  /\ integer_column (Item.product_id i) = Ok (Item.product_id row)
  /\ float_column (Item.price i) = Ok (Item.price row)
  /\ integer_column (Item.quantity i) = Ok (Item.quantity row)
  /\ integer_column (Item.order_id i) = Ok (Item.order_id row)
  /\ Item.status row = Item.status i
  /\ d' = mkDatabase (order_table d)
            (map (fun r => if has_pk k r then row else r) (item_table d)).
Proof.
  unfold update_item_row.
  destruct (integer_column (Item.product_id i)) as [pid |]; [| discriminate].
  destruct (float_column (Item.price i)) as [pr |]; [| discriminate].
  destruct (integer_column (Item.quantity i)) as [q |]; [| discriminate].
  destruct (integer_column (Item.order_id i)) as [oid |]; [| discriminate].
  destruct (_ || _ || _ || _); [discriminate |].
  intros H. injection H as <- <-. repeat split.
Qed.

(** After a PUT /orders/<id>/items/<item_id> that answered with a
    response, the item stored under <item_id> is the one in the body: its
    id is the <item_id> of the URL whatever id the payload gave, and its
    product_id, price, quantity, order_id and status are those of the
    payload where these have the type of their column (an integer of 64
    bits, a float, a string; the order_id may also be null), the order_id
    of the URL playing no part.  The orders and the items of other ids are
    as before, and GET on the same path then answers 200 with the body of
    the PUT. *)
Theorem update_item_overwrites_from_payload
  (w w' : World) (order_id item_id : Z) (req : request) (resp : response)
  (Hrun : update_item order_id item_id req w = (Ok resp, w')) :
  exists row : Item.t,
    body resp = Json (Item.serialize row)
    /\ Item.id row = JInt item_id
    /\ (forall v, getitem (get_json req) "product_id" = Ok v -> is_int64 v = true ->
                  Item.product_id row = v)
    /\ (forall v, getitem (get_json req) "price" = Ok v -> is_float v = true ->
                  Item.price row = v)
    /\ (forall v, getitem (get_json req) "quantity" = Ok v -> is_int64 v = true ->
                  Item.quantity row = v)
    /\ (forall v, getitem (get_json req) "order_id" = Ok v ->
                  is_int64 v || is_null v = true -> Item.order_id row = v)
    /\ (forall v, getitem (get_json req) "status" = Ok v -> is_str v = true ->
                  Item.status row = v)
    /\ find (has_pk item_id) (item_table (db w')) = Some row
    /\ order_table (db w') = order_table (db w)
    /\ (forall i, In i (item_table (db w)) -> has_pk item_id i = false ->
                  In i (item_table (db w')))
    /\ fst (list_item order_id item_id w')
       = Ok (mkResponse (body resp) status.HTTP_200_OK []).
Proof.
  unfold update_item, bind in Hrun.
  destruct (check_content_type_cases req w) as [E | [e0 E]]; rewrite E in Hrun;
    [| discriminate Hrun].
  destruct (find_order_row order_id (db w)) as [O |] eqn:EO.
  2: { rewrite (order_find_missing _ _ EO) in Hrun.
       destruct (in_key_range order_id); discriminate Hrun. }
  rewrite (order_find_found _ _ _ EO) in Hrun.
  destruct (find (has_pk item_id) (item_table (db w))) as [I |] eqn:EI.
  2: { erewrite item_find_missing in Hrun by exact EI.
       destruct (in_key_range item_id); discriminate Hrun. }
  erewrite item_find_found in Hrun by exact EI.
  unfold lift in Hrun.
  destruct (Item.deserialize I (get_json req)) as [p |] eqn:Edes; [| discriminate Hrun].
  apply item_deserialize_reads in Edes.
  destruct Edes as (_ & Hp & Hpr & Hq & Ho & Hs).
  unfold Item_update in Hrun. cbn [Item.set_id Item.id] in Hrun.
  unfold commit, bind, call, get_db, put_db, lift, ret in Hrun.
  cbn [db calls import_date] in Hrun.
  destruct (update_item_row item_id _ (db w)) as [[row d'] |] eqn:Eupd;
    [| discriminate Hrun].
  cbn [fst snd] in Hrun. injection Hrun as <- <-.
  apply update_item_row_stored in Eupd.
  cbn [Item.product_id Item.price Item.quantity Item.order_id Item.status] in Eupd.
  destruct Eupd as (Hid & Epid & Epr & Eq & Eoid & Est & ->).
  assert (Hrow : has_pk item_id row = true)
    by (unfold has_pk; rewrite Hid; apply Z.eqb_refl).
  exists row. cbn [body db item_table order_table].
  split; [reflexivity |]. split; [assumption |].
  split.
  { intros v Hv _. rewrite Hp in Hv. injection Hv as <-.
    apply integer_column_ok in Epid. now symmetry. }
  split.
  { intros v Hv Hf. rewrite Hpr in Hv. injection Hv as <-.
    now apply float_column_float in Epr. }
  split.
  { intros v Hv _. rewrite Hq in Hv. injection Hv as <-.
    apply integer_column_ok in Eq. now symmetry. }
  split.
  { intros v Hv _. rewrite Ho in Hv. injection Hv as <-.
    apply integer_column_ok in Eoid. now symmetry. }
  split.
  { intros v Hv _. rewrite Hs in Hv. injection Hv as <-. exact Est. }
  split.
  { apply (find_replaced _ _ _ I); assumption. }
  split; [reflexivity |]. split.
  { intros i Hin Hne. apply in_map_iff. exists i. now rewrite Hne. }
  unfold list_item, bind.
  erewrite order_find_found by exact EO.
  erewrite item_find_found; [reflexivity |].
  cbn [db item_table]. apply (find_replaced _ _ _ I); assumption.
Qed.

Lemma update_item_overwrites_from_payload_witness :
  let w := world_of sample_db in
  let req := json_request (Item.serialize item9) in
  let stored := Item.set_id (JInt 1) item9 in
  let resp := mkResponse (Json (Item.serialize stored)) status.HTTP_200_OK [] in
  let w' := snd (update_item 5 1 req w) in
  exists row : Item.t,
    body resp = Json (Item.serialize row)
    /\ Item.id row = JInt 1
    /\ (forall v, getitem (get_json req) "product_id" = Ok v -> is_int64 v = true ->
                  Item.product_id row = v)
    /\ (forall v, getitem (get_json req) "price" = Ok v -> is_float v = true ->
                  Item.price row = v)
    /\ (forall v, getitem (get_json req) "quantity" = Ok v -> is_int64 v = true ->
                  Item.quantity row = v)
    /\ (forall v, getitem (get_json req) "order_id" = Ok v ->
                  is_int64 v || is_null v = true -> Item.order_id row = v)
    /\ (forall v, getitem (get_json req) "status" = Ok v -> is_str v = true ->
                  Item.status row = v)
    /\ find (has_pk 1) (item_table (db w')) = Some row
    /\ order_table (db w') = order_table (db w)
    /\ (forall i, In i (item_table (db w)) -> has_pk 1 i = false ->
                  In i (item_table (db w')))
    /\ fst (list_item 5 1 w') = Ok (mkResponse (body resp) status.HTTP_200_OK []).
Proof.
  intros w req stored resp w'.
  apply (update_item_overwrites_from_payload w w' 5 1 req resp). reflexivity.
Defined.

(** ** GET /orders/date/<date_iso> *)

Lemma date_eqb_eq (a b : date) : date_eqb a b = true <-> a = b.
Proof.
  unfold date_eqb. rewrite !andb_true_iff, !Z.eqb_eq.
  destruct a, b; simpl. split.
  - intros [[-> ->] ->]. reflexivity.
  - intros H. injection H as -> -> ->. repeat split.
Qed.

Lemma serialize_orders_loaded (d : Database) (rows : list OrderRow) :
  exists l, serialize_orders (map (load_order d) rows) = Ok l
            /\ Forall2 (fun r j => Order.serialize (load_order d r) = Ok j) rows l.
Proof.
  induction rows as [| r rows (l & Hl & Hall)].
  - exists []. split; [reflexivity | constructor].
  - eexists. cbn [map serialize_orders]. rewrite serialize_loaded, Hl.
    split; [reflexivity |]. constructor; [apply serialize_loaded | assumption].
Qed.

(** For a [date_iso] that parses to the date [d], the orders that match
    are the stored orders whose date_created is exactly [d]; with none
    the view answers 404 with a message that quotes [date_iso], otherwise
    200 with the serialization of each of them, in the order of the
    table. *)
Theorem date_route_matches_the_exact_date
  (w : World) (date_iso : string) (d : date)
  (Hparse : fromisoformat (JStr date_iso) = Ok d) :
  let matching := filter (fun r => date_eqb (row_date_created r) d) (order_table (db w)) in
  (forall r, In r matching <-> In r (order_table (db w)) /\ row_date_created r = d)
  /\ (matching = [] ->
      fst (order_retrieve_based_on_date date_iso w)
      = Raise (HTTPException status.HTTP_404_NOT_FOUND
                 ("No order was found for date '" ++ date_iso ++ "'")))
  /\ (matching <> [] ->
      exists l,
        fst (order_retrieve_based_on_date date_iso w)
        = Ok (mkResponse (Json (JList l)) status.HTTP_200_OK [])
        /\ Forall2 (fun r j => Order.serialize (load_order (db w) r) = Ok j) matching l).
Proof.
  intros matching. split; [| split].
  - intros r. unfold matching. rewrite filter_In, date_eqb_eq. reflexivity.
  - intros Hnone.
    unfold order_retrieve_based_on_date, Order_find_by_date, bind, lift, call, get_db.
    rewrite Hparse. cbn [db]. unfold fetch_orders. fold matching. rewrite Hnone.
    reflexivity.
  - intros Hsome.
    unfold order_retrieve_based_on_date, Order_find_by_date, bind, lift, call, get_db.
    rewrite Hparse. cbn [db]. unfold fetch_orders. fold matching.
    destruct (serialize_orders_loaded (db w) matching) as (l & Hl & Hall).
    exists l. split; [| assumption].
    destruct matching as [| r rest]; [now contradiction Hsome |].
    cbn [map] in *. rewrite Hl. reflexivity.
Qed.

Lemma date_route_matches_the_exact_date_witness :
  let w := world_of sample_db in
  let matching :=
    filter (fun r => date_eqb (row_date_created r) (mkDate 2023 3 7)) (order_table (db w)) in
  (forall r, In r matching
             <-> In r (order_table (db w)) /\ row_date_created r = mkDate 2023 3 7)
  /\ (matching = [] ->
      fst (order_retrieve_based_on_date "2023-03-07" w)
      = Raise (HTTPException status.HTTP_404_NOT_FOUND
                 ("No order was found for date '" ++ "2023-03-07" ++ "'")))
  /\ (matching <> [] ->
      exists l,
        fst (order_retrieve_based_on_date "2023-03-07" w)
        = Ok (mkResponse (Json (JList l)) status.HTTP_200_OK [])
        /\ Forall2 (fun r j => Order.serialize (load_order (db w) r) = Ok j) matching l).
Proof.
  intros w.
  apply (date_route_matches_the_exact_date w "2023-03-07" (mkDate 2023 3 7)). reflexivity.
Defined.

(** A [date_iso] whose length is none of 7, 8 and 10, the lengths of the
    ISO formats [date.fromisoformat] reads, makes the view raise the
    [ValueError] of the parser before any query: the world, log of
    database calls included, is as it was. *)
Theorem date_route_rejects_before_any_query
  (w : World) (date_iso : string)
  (Hlength : String.length date_iso <> 7%nat
             /\ String.length date_iso <> 8%nat
             /\ String.length date_iso <> 10%nat) :
  order_retrieve_based_on_date date_iso w = (Raise ValueError, w).
Proof.
  unfold order_retrieve_based_on_date, Order_find_by_date, bind, lift.
  rewrite (fromisoformat_other_length date_iso (proj2 (proj2 Hlength))). reflexivity.
Qed.

Lemma date_route_rejects_before_any_query_witness :
  order_retrieve_based_on_date "2023-03-7" (world_of sample_db)
  = (Raise ValueError, world_of sample_db).
Proof.
  apply (date_route_rejects_before_any_query (world_of sample_db) "2023-03-7").
  cbn. repeat split; discriminate.
Defined.

(** After a PUT /orders/<id> that answered with a response, GET
    /orders/<id> answers 200 with the very body the PUT returned. *)
Theorem updated_order_is_retrievable
  (w w' : World) (order_id : Z) (req : request) (resp : response)
  (Hrun : update_orders order_id req w = (Ok resp, w')) :
  status_code resp = status.HTTP_200_OK
  /\ fst (get_orders order_id w') = Ok (mkResponse (body resp) status.HTTP_200_OK []).
Proof.
  apply update_orders_ok in Hrun.
  destruct Hrun as (before & o & row & j & _ & _ & _ & Hrow & Hser & ->).
  split; [reflexivity |].
  unfold get_orders, bind. rewrite (order_find_found _ _ _ Hrow).
  unfold lift. rewrite Hser. reflexivity.
Qed.

Lemma updated_order_is_retrievable_witness :
  let w := world_of sample_db in
  let req := json_request (JDict [ ("name", JStr "B"); ("address", JStr "X") ]) in
  let resp :=
    mkResponse
      (Json (JDict [ ("id", JInt 5); ("name", JStr "B"); ("address", JStr "X");
                     ("date_created", JStr "2023-03-07");
                     ("items", JList [Item.serialize item1]) ]))
      status.HTTP_200_OK [] in
  let w' := snd (update_orders 5 req w) in
  status_code resp = status.HTTP_200_OK
  /\ fst (get_orders 5 w') = Ok (mkResponse (body resp) status.HTTP_200_OK []).
Proof.
  intros w req resp w'.
  apply (updated_order_is_retrievable w w' 5 req resp). reflexivity.
Defined.

(** ** GET /orders *)

Lemma fold_serialize_loaded (d : Database) (rows : list OrderRow) :
  exists l,
    fold_right (fun o acc => let? l := acc in let? s := Order.serialize o in Ok (s :: l))
               (Ok []) (map (load_order d) rows) = Ok l
    /\ Forall2 (fun r j => Order.serialize (load_order d r) = Ok j) rows l.
Proof.
  induction rows as [| r rows (l & Hl & Hall)].
  - exists []. split; [reflexivity | constructor].
  - eexists. cbn [map fold_right]. rewrite Hl, serialize_loaded.
    split; [reflexivity |]. constructor; [apply serialize_loaded | assumption].
Qed.

(** GET /orders always answers 200, with one entry per stored order in
    the order of the table, each the serialization of that order; with no
    order stored the list is empty.  The tables are as before. *)
Theorem list_orders_lists_every_order (w : World) :
  exists l,
    fst (list_orders w) = Ok (mkResponse (Json (JList l)) status.HTTP_200_OK [])
    /\ Forall2 (fun r j => Order.serialize (load_order (db w) r) = Ok j)
               (order_table (db w)) l
    /\ db (snd (list_orders w)) = db w.
Proof.
  destruct (fold_serialize_loaded (db w) (order_table (db w))) as (l & Hl & Hall).
  exists l. unfold list_orders, Order_all, bind, call, get_db, ret, lift.
  cbn [db]. rewrite Hl. repeat split. assumption.
Qed.
